(** * exchange_rate: the rate resolver, the converter and the cache cycle

    A shallow embedding of [currency.py] and [currency_converter.py].

    Modelling choices.
    - A Python [dict] with string keys is an association list in insertion
      order ([PyDict]); [json.load] and dict assignment never produce a
      repeated key, which is the well-formedness predicate [PyDict.wf].
    - JSON numbers are rationals ([Q]).  The value the source writes as the
      literal [1.0] is [1]; [a / b] is [py_truediv], which raises
      [ZeroDivisionError] on a zero divisor as Python does.
    - A value stored under an anchor is [Null] (Python [None], what a
      failed fetch leaves) or an object that carries a ["rates"] mapping or
      lacks it.
    - Exceptions are an explicit result type; functions that touch the
      file, the clock, the network or the console run in the [IO] monad
      over a [world]. *)

From Stdlib Require Import String List ZArith QArith Bool Lia.
From Stdlib Require Sorted.
Import ListNotations.

Local Open Scope string_scope.
Local Open Scope list_scope.
Local Open Scope Q_scope.

(** ** Exceptions *)

Inductive exn : Type :=
| ZeroDivisionError
| KeyError (key : string)
| FileNotFoundError
| PermissionError
| OSError
| JSONDecodeError
| ConnectionError.

Inductive result (A : Type) : Type :=
| Return (a : A)
| Raise (e : exn).

Arguments Return {A} a.
Arguments Raise {A} e.

Definition rbind {A B : Type} (r : result A) (k : A -> result B) : result B :=
  match r with
  | Return a => k a
  | Raise e => Raise e
  end.

Declare Scope result_scope.
Delimit Scope result_scope with result.
Notation "x <- r ;; k" := (rbind r (fun x => k))
  (at level 61, r at next level, right associativity) : result_scope.

(** ** Insertion-ordered dictionaries *)

Module PyDict.

Definition dict (V : Type) : Type := list (string * V).

Section Ops.
Context {V : Type}.

(** [d.get(k)]: the value stored under [k], if any. *)
Fixpoint get (k : string) (d : dict V) : option V :=
  match d with
  | [] => None
  | (k', v) :: rest => if String.eqb k k' then Some v else get k rest
  end.

(** [k in d]. *)
Definition mem (k : string) (d : dict V) : bool :=
  match get k d with
  | Some _ => true
  | None => false
  end.

(** [d[k]], which raises [KeyError] on a missing key. *)
Definition getitem (d : dict V) (k : string) : result V :=
  match get k d with
  | Some v => Return v
  | None => Raise (KeyError k)
  end.

(** [d[k] = v]: an existing key keeps its position, a new one goes last. *)
Fixpoint set (k : string) (v : V) (d : dict V) : dict V :=
  match d with
  | [] => [(k, v)]
  | (k', v') :: rest =>
      if String.eqb k k' then (k', v) :: rest else (k', v') :: set k v rest
  end.

(** [d.keys()] and [d.items()], in iteration order. *)
Definition keys (d : dict V) : list string := map fst d.
Definition items (d : dict V) : list (string * V) := d.

(** No key occurs twice. *)
Definition wf (d : dict V) : Prop := NoDup (keys d).

End Ops.

End PyDict.

Import PyDict.

(** ** The rate table *)

(** What is stored under an anchor code. *)
Inductive entry : Type :=
| Null
| Obj (rates : option (dict Q)).

Definition table : Type := dict entry.

(** [isinstance(e, dict) and "rates" in e], together with [e["rates"]]. *)
Definition rates_of (e : entry) : option (dict Q) :=
  match e with
  | Null => None
  | Obj r => r
  end.

(** Python's [a / b] on numbers, as far as rationals go: it raises
    [ZeroDivisionError] on a zero divisor.  The [OverflowError] of an
    integer too large for a float has no counterpart over [Q]; what is
    proved about exceptions below is therefore about [ZeroDivisionError]
    and [KeyError] only. *)
Definition py_truediv (a b : Q) : result Q :=
  if Qeq_bool b 0 then Raise ZeroDivisionError else Return (a / b).

(** ** currency_converter.py *)

(** The scan [for base_currency, currency_data in data.items()] of
    [find_base_currency]: the first item whose rates hold [currency]. *)
Fixpoint scan_rates (its : list (string * entry)) (currency : string)
  : option string :=
  match its with
  | [] => None
  | (base_currency, currency_data) :: rest =>
      match rates_of currency_data with
      | Some rates =>
          if mem currency rates then Some base_currency
          else scan_rates rest currency
      | None => scan_rates rest currency
      end
  end.

Definition find_base_currency (data : table) (currency : string)
  : option string :=
  if mem currency data then Some currency
  else scan_rates (items data) currency.

(** [not base_currency] on an [Optional[str]]: [None] and the empty string
    are both falsy. *)
Definition falsy (s : option string) : bool :=
  match s with
  | None => true
  | Some c => String.eqb c ""
  end.

Definition get_exchange_rate (data : table) (from_currency to_currency : string)
  : result (option Q) :=
  if String.eqb from_currency to_currency then Return (Some 1)
  else
    let base_currency := find_base_currency data from_currency in
    if falsy base_currency then Return None
    else
      match base_currency with
      | None => Return None
      | Some base_currency =>
          (base_data <- getitem data base_currency ;;
           match rates_of base_data with
           | None => Return None
           | Some rates =>
               if mem from_currency rates && mem to_currency rates then
                 (from_rate <- getitem rates from_currency ;;
                  to_rate <- getitem rates to_currency ;;
                  if Qeq_bool from_rate 0 then Return None
                  else (q <- py_truediv to_rate from_rate ;; Return (Some q)))
               else Return None
           end)%result
      end.

Definition convert_currency (data : table) (amount : Q)
  (from_currency to_currency : string) : result (option Q) :=
  (rate <- get_exchange_rate data from_currency to_currency ;;
   match rate with
   | None => Return None
   | Some r => Return (Some (amount * r))
   end)%result.

(** [get_available_currencies]: the codes of every rates mapping, without
    repetition, in increasing order. *)
Fixpoint set_add (c : string) (s : list string) : list string :=
  match s with
  | [] => [c]
  | c' :: rest => if String.eqb c c' then s else c' :: set_add c rest
  end.

Definition set_update (s : list string) (cs : list string) : list string :=
  fold_left (fun acc c => set_add c acc) cs s.

Fixpoint sorted_insert (c : string) (l : list string) : list string :=
  match l with
  | [] => [c]
  | c' :: rest => if String.leb c c' then c :: l else c' :: sorted_insert c rest
  end.

Definition sorted (l : list string) : list string :=
  fold_right sorted_insert [] l.

Definition get_available_currencies (data : table) : list string :=
  sorted
    (fold_left
       (fun currencies item =>
          match rates_of (snd item) with
          | Some rates => set_update currencies (keys rates)
          | None => currencies
          end)
       (items data) []).

(** [c in l] on a list of strings. *)
Definition in_list (c : string) (l : list string) : bool :=
  existsb (String.eqb c) l.

(** One pass of the menu of [main] with choice ["1"]: the two codes as
    entered (after [strip().upper()]) and the amount as [float] parsed it,
    [None] when it raised [ValueError].  The conversion routine is a
    parameter, so that what the pass asks of it can be stated. *)
Inductive menu_outcome : Type :=
| UnknownCurrency (code : string)
| BadNumber
| NegativeAmount
| NoExchangeRate (from_currency to_currency : string)
| Converted (amount converted : Q)
| Uncaught (e : exn).

Definition convert_choice_with
  (convert : table -> Q -> string -> string -> result (option Q))
  (data : table) (available_currencies : list string)
  (from_currency to_currency : string) (amount_input : option Q)
  : menu_outcome :=
  if negb (in_list from_currency available_currencies)
  then UnknownCurrency from_currency
  else if negb (in_list to_currency available_currencies)
  then UnknownCurrency to_currency
  else
    match amount_input with
    | None => BadNumber
    | Some amount =>
        if negb (Qle_bool 0 amount) then NegativeAmount
        else
          match convert data amount from_currency to_currency with
          | Raise e => Uncaught e
          | Return None => NoExchangeRate from_currency to_currency
          | Return (Some r) => Converted amount r
          end
    end.

Definition convert_choice (data : table) :=
  convert_choice_with convert_currency data (get_available_currencies data).

(** ** currency.py: the resolver *)

Definition FAVORITE_CURRENCIES : list string := ["USD"; "EUR"; "GBP"; "RUB"].
Definition FILE_NAME : string := "currency_rate.json".

Definition get_available_base_currencies (data : table) : list string :=
  keys data.

Definition find_base_currency_for_currency (data : table) (currency : string)
  : option string :=
  if mem currency data then Some currency
  else scan_rates (items data) currency.

(** The loop that fills [new_rates] in [get_rates_for_base_currency]. *)
Fixpoint rebase_loop (its : list (string * Q)) (base_currency : string)
  (base_rate : Q) (new_rates : dict Q) : result (dict Q) :=
  match its with
  | [] => Return new_rates
  | (currency, rate) :: rest =>
      if String.eqb currency base_currency
      then rebase_loop rest base_currency base_rate (set currency 1 new_rates)
      else
        (q <- py_truediv rate base_rate ;;
         rebase_loop rest base_currency base_rate (set currency q new_rates))%result
  end.

Definition get_rates_for_base_currency (data : table) (base_currency : string)
  : result (option (dict Q)) :=
  (direct <-
     (if mem base_currency data
      then (currency_data <- getitem data base_currency ;;
            Return (rates_of currency_data))
      else Return None) ;;
   match direct with
   | Some rates => Return (Some rates)
   | None =>
       let source_base := find_base_currency_for_currency data base_currency in
       if falsy source_base then Return None
       else
         match source_base with
         | None => Return None
         | Some source_base =>
             source_data <- getitem data source_base ;;
             match rates_of source_data with
             | None => Return None
             | Some source_rates =>
                 if negb (mem base_currency source_rates) then Return None
                 else
                   base_rate <- getitem source_rates base_currency ;;
                   if Qeq_bool base_rate 0 then Return None
                   else
                     new_rates <-
                       rebase_loop (items source_rates) base_currency base_rate [] ;;
                     Return (Some new_rates)
             end
         end
   end)%result.

(** ** currency.py: the cache cycle

    The functions below read the clock, the cache file and the network and
    print to the console.  They run over a [world]. *)

(** What a file holds: a complete dump of a table, or text that
    [json.load] rejects (an empty or partly written dump). *)
Inductive file_content : Type :=
| Json (t : table)
| Malformed.

Record file : Type := MkFile {
  (** [datetime.fromtimestamp(os.path.getmtime(path))] in microseconds, or
      the exception that probing raises *)
  file_time : result Z;
  (** the exception [open(path, "r")] raises, if any *)
  read_error : option exn;
  content : file_content
}.

(** How the next write to disk goes. *)
Inductive write_plan : Type :=
| WriteOk
| OpenFails (e : exn)
| DumpFails (e : exn).

(** A response: its status code and what [response.json()] gives. *)
Record response : Type := MkResponse {
  status_code : Z;
  json : result entry
}.

(** What [requests.get] does for a currency code: it raises, or a response
    comes back. *)
Inductive http_outcome : Type :=
| RequestRaises (e : exn)
| Responds (r : response).

(** The lines the functions print, one constructor per [print] of the
    source. *)
Inductive message : Type :=
| MsgHttpStatus (status_code : Z)
| MsgSaveError (e : exn)
| MsgUpdated
| MsgFileNotFound
| MsgBadJson
| MsgReadError (e : exn)
| MsgAgeError (e : exn)
| MsgRefreshing
| MsgUsingCache.

(** The files, the clock ([datetime.now()] in microseconds), the server,
    the fate of the next write and what has been printed so far. *)
Record world : Type := MkWorld {
  fs : string -> option file;
  now : Z;
  http : string -> http_outcome;
  disk : write_plan;
  stdout : list message
}.

Definition IO (A : Type) : Type := world -> result A * world.

Definition io_ret {A : Type} (a : A) : IO A := fun w => (Return a, w).

Definition io_raise {A : Type} (e : exn) : IO A := fun w => (Raise e, w).

Definition io_bind {A B : Type} (c : IO A) (k : A -> IO B) : IO B :=
  fun w =>
    match c w with
    | (Return a, w') => k a w'
    | (Raise e, w') => (Raise e, w')
    end.

(** [try: c except Exception as e: h e]. *)
Definition try_except {A : Type} (c : IO A) (h : exn -> IO A) : IO A :=
  fun w =>
    match c w with
    | (Return a, w') => (Return a, w')
    | (Raise e, w') => h e w'
    end.

Declare Scope io_scope.
Delimit Scope io_scope with io.
Notation "x <- c ;; k" := (io_bind c (fun x => k))
  (at level 61, c at next level, right associativity) : io_scope.
Notation "c ;; k" := (io_bind c (fun _ => k))
  (at level 61, right associativity) : io_scope.

Definition print (m : message) : IO unit :=
  fun w => (Return tt,
            MkWorld (fs w) (now w) (http w) (disk w) (stdout w ++ [m])).

Definition write_file (path : string) (f : file) : IO unit :=
  fun w => (Return tt,
            MkWorld (fun p => if String.eqb p path then Some f else fs w p)
                    (now w) (http w) (disk w) (stdout w)).

(** [open(path, "w")]: raises and leaves the disk alone, or leaves an
    empty file. *)
Definition open_w (path : string) : IO unit :=
  fun w =>
    match disk w with
    | OpenFails e => (Raise e, w)
    | _ =>
        let keep := match fs w path with
                    | Some f => read_error f
                    | None => None
                    end in
        write_file path (MkFile (Return (now w)) keep Malformed) w
    end.

(** [json.dump(data, file)] on the file just opened, then the close of the
    [with] block: raises with the dump unfinished, or completes it. *)
Definition json_dump (data : table) (path : string) : IO unit :=
  fun w =>
    match disk w with
    | DumpFails e => (Raise e, w)
    | _ =>
        match fs w path with
        | Some f => write_file path (MkFile (file_time f) (read_error f) (Json data)) w
        | None => (Raise FileNotFoundError, w)
        end
    end.

Definition requests_get (currency_code : string) : IO response :=
  fun w =>
    match http w currency_code with
    | RequestRaises e => (Raise e, w)
    | Responds r => (Return r, w)
    end.

Definition response_json (r : response) : IO entry :=
  fun w => (json r, w).

Definition get_currency_rate (currency_code : string) : IO entry :=
  (response <- requests_get currency_code ;;
   if negb (Z.eqb (status_code response) 200)
   then (print (MsgHttpStatus (status_code response)) ;; io_ret Null)
   else (data <- response_json response ;; io_ret data))%io.

Definition save_to_file (data : table) : IO unit :=
  try_except
    (open_w FILE_NAME ;; json_dump data FILE_NAME)%io
    (fun e => print (MsgSaveError e)).

(** The loop of [update_currency_rates] over the configured codes. *)
Fixpoint fetch_all (currencies : list string) (all_data : table) : IO table :=
  match currencies with
  | [] => io_ret all_data
  | currency :: rest =>
      (rate <- get_currency_rate currency ;;
       fetch_all rest (set currency rate all_data))%io
  end.

Definition update_currency_rates_for (currencies : list string) : IO unit :=
  (all_data <- fetch_all currencies [] ;;
   save_to_file all_data ;;
   print MsgUpdated)%io.

Definition update_currency_rates : IO unit :=
  update_currency_rates_for FAVORITE_CURRENCIES.

Definition open_r_load (path : string) : IO table :=
  fun w =>
    match fs w path with
    | None => (Raise FileNotFoundError, w)
    | Some f =>
        match read_error f with
        | Some e => (Raise e, w)
        | None =>
            match content f with
            | Json t => (Return t, w)
            | Malformed => (Raise JSONDecodeError, w)
            end
        end
    end.

Definition read_from_file : IO (option table) :=
  try_except
    (t <- open_r_load FILE_NAME ;; io_ret (Some t))%io
    (fun e =>
       match e with
       | FileNotFoundError => (print MsgFileNotFound ;; io_ret None)%io
       | JSONDecodeError => (print MsgBadJson ;; io_ret None)%io
       | _ => (print (MsgReadError e) ;; io_ret None)%io
       end).

Definition path_exists (path : string) : IO bool :=
  fun w => (Return (match fs w path with Some _ => true | None => false end), w).

Definition probe_file_time (path : string) : IO Z :=
  fun w =>
    match fs w path with
    | Some f => (file_time f, w)
    | None => (Raise FileNotFoundError, w)
    end.

Definition datetime_now : IO Z := fun w => (Return (now w), w).

(** [timedelta(hours=24)] in microseconds. *)
Definition hours_24 : Z := (24 * 3600 * 1000000)%Z.

Definition is_file_older_than_24_hours (file_path : string) : IO bool :=
  (present <- path_exists file_path ;;
   if negb present then io_ret true
   else
     try_except
       (file_time <- probe_file_time file_path ;;
        current_time <- datetime_now ;;
        let time_diff := (current_time - file_time)%Z in
        io_ret (Z.ltb hours_24 time_diff))
       (fun e => print (MsgAgeError e) ;; io_ret true))%io.

Definition load_or_update_currency_rates : IO (option table) :=
  (stale <- is_file_older_than_24_hours FILE_NAME ;;
   (if stale : bool
    then (print MsgRefreshing ;; update_currency_rates)
    else print MsgUsingCache) ;;
   read_from_file)%io.

(** ** currency_converter.py: the rest of the menu *)

(** One pass of the menu of [main] with choice ["2"], on the two codes as
    entered; the listed currencies are those of the loaded table. *)
Inductive rate_outcome : Type :=
| RateUnknownCurrency (code : string)
| RateUnavailable (from_currency to_currency : string)
| RateShown (from_currency to_currency : string) (rate : Q)
| RateUncaught (e : exn).

Definition rate_choice (data : table) (from_currency to_currency : string)
  : rate_outcome :=
  let available_currencies := get_available_currencies data in
  if negb (in_list from_currency available_currencies)
  then RateUnknownCurrency from_currency
  else if negb (in_list to_currency available_currencies)
  then RateUnknownCurrency to_currency
  else
    match get_exchange_rate data from_currency to_currency with
    | Raise e => RateUncaught e
    | Return None => RateUnavailable from_currency to_currency
    | Return (Some rate) => RateShown from_currency to_currency rate
    end.

(** [Fore.GREEN] and [Fore.RESET] of colorama. *)
Definition Fore_GREEN : string := String (Ascii.ascii_of_nat 27) "[32m".
Definition Fore_RESET : string := String (Ascii.ascii_of_nat 27) "[39m".

(** The indices of [range(start, stop, step)] for a step above zero;
    [fuel] bounds their number. *)
Fixpoint range_from (fuel start stop step : nat) : list nat :=
  match fuel with
  | O => []
  | S fuel' =>
      if Nat.ltb start stop
      then start :: range_from fuel' (start + step) stop step
      else []
  end.

(** [range(0, stop, step)] with a step that is not negative: a step of
    zero raises [ValueError], which is [None] here. *)
Definition py_range (stop step : nat) : option (list nat) :=
  if Nat.eqb step 0 then None else Some (range_from stop 0 stop step).

(** [l[i:i + n]]. *)
Definition slice {A : Type} (l : list A) (i n : nat) : list A :=
  firstn n (skipn i l).

(** The successive values of [line_currencies] in [display_currencies]. *)
Definition display_rows (currencies : list string) (per_line : nat)
  : option (list (list string)) :=
  option_map (map (fun i => slice currencies i per_line))
             (py_range (length currencies) per_line).

(** The text of one printed line. *)
Definition format_row (line_currencies : list string) : string :=
  String.append "  "
    (String.concat "  "
       (map (fun curr => String.append Fore_GREEN (String.append curr Fore_RESET))
            line_currencies)).

(** [display_currencies]: the strings handed to [print], one per line. *)
Definition display_currencies (currencies : list string) (per_line : nat)
  : option (list string) :=
  option_map (map format_row) (display_rows currencies per_line).

(** ** Sample data *)

(** [{"USD": {"rates": {"USD": 1.0, "EUR": 0.9, "GBP": 0.8}}}] *)
Definition usd_rates : dict Q := [("USD", 1); ("EUR", 0.9); ("GBP", 0.8)].
Definition sample_table : table := [("USD", Obj (Some usd_rates))].

(** Two anchors that quote each other, as two independent fetches do. *)
Definition two_anchor_table : table :=
  [("USD", Obj (Some [("USD", 1); ("EUR", 0.9)]));
   ("EUR", Obj (Some [("EUR", 1); ("USD", 1.2)]))].

(** A code quoted under two anchors, the first of which failed to load. *)
Definition shared_code_table : table :=
  [("USD", Null);
   ("EUR", Obj (Some [("EUR", 1); ("JPY", 160)]));
   ("GBP", Obj (Some [("GBP", 1); ("JPY", 190)]))].

(** An anchor that quotes its own code at zero. *)
Definition zero_rate_table : table :=
  [("USD", Obj (Some [("USD", 0); ("EUR", 0.9)]))].

(** A code that its anchor quotes at zero. *)
Definition dead_quote_table : table :=
  [("USD", Obj (Some [("USD", 1); ("XXX", 0)]))].

(** A server that answers every code with the sample rates. *)
Definition server_up (currency_code : string) : http_outcome :=
  Responds (MkResponse 200 (Return (Obj (Some usd_rates)))).

(** The same server, unreachable for EUR and answering 404 for GBP. *)
Definition server_eur_down (currency_code : string) : http_outcome :=
  if String.eqb currency_code "EUR" then RequestRaises ConnectionError
  else if String.eqb currency_code "GBP" then Responds (MkResponse 404 (Raise JSONDecodeError))
  else server_up currency_code.

(** The server with GBP alone answering 404. *)
Definition server_gbp_404 (currency_code : string) : http_outcome :=
  if String.eqb currency_code "GBP" then Responds (MkResponse 404 (Raise JSONDecodeError))
  else server_up currency_code.

Definition no_files (path : string) : option file := None.

(** The cache file holding the sample table, written at time [t]. *)
Definition cache_written_at (t : Z) (path : string) : option file :=
  if String.eqb path FILE_NAME
  then Some (MkFile (Return t) None (Json sample_table))
  else None.

(** The cache file present, with its age impossible to probe. *)
Definition cache_unreadable (path : string) : option file :=
  if String.eqb path FILE_NAME
  then Some (MkFile (Raise PermissionError) (Some PermissionError) Malformed)
  else None.

(** Noon of some day, in microseconds, and moments before it. *)
Definition noon : Z := (1000 * 24 * 3600 * 1000000 + 12 * 3600 * 1000000)%Z.
Definition one_minute : Z := (60 * 1000000)%Z.

Definition world_at_noon (files : string -> option file) (plan : write_plan)
  (server : string -> http_outcome) : world :=
  MkWorld files noon server plan [].

(** ** Specification-side definitions *)

(** No item of [its] quotes [currency]. *)
Definition unquoted (its : list (string * entry)) (currency : string) : Prop :=
  forall k e rates,
    In (k, e) its -> rates_of e = Some rates -> mem currency rates = false.

(** The rebased mapping in the words of the specification: every code of
    the anchor's rates, in the same order, with [rate / b], and the base
    code itself at exactly 1. *)
Definition spec_rebased_rates (rates : dict Q) (base_code : string) (b : Q)
  : dict Q :=
  map (fun it => (fst it, if String.eqb (fst it) base_code then 1 else snd it / b))
      rates.

(** What [update_currency_rates] stores for a response. *)
Definition spec_fetched_entry (r : response) : entry :=
  if Z.eqb (status_code r) 200
  then match json r with
       | Return d => d
       | Raise _ => Null
       end
  else Null.

(** The second world differs from the first in its console output only. *)
Definition same_env (w w' : world) : Prop :=
  fs w' = fs w /\ now w' = now w /\ http w' = http w /\ disk w' = disk w.

(** The server answers [currency_code] in a way [get_currency_rate]
    survives: a response whose body parses whenever its status is 200. *)
Definition answers (w : world) (currency_code : string) (r : response) : Prop :=
  http w currency_code = Responds r /\
  (status_code r = 200%Z -> exists d, json r = Return d).

(** The content of the file at [path], if there is one. *)
Definition content_at (w : world) (path : string) : option file_content :=
  option_map content (fs w path).

(** The fetch for [currency_code] raises: the request itself, or the
    parse of a body that came with status 200. *)
Definition fetch_raises (w : world) (currency_code : string) (e : exn) : Prop :=
  http w currency_code = RequestRaises e \/
  exists r, http w currency_code = Responds r /\
            status_code r = 200%Z /\ json r = Raise e.

(** Some item of the table quotes [currency] in its rates. *)
Definition quoted (data : table) (currency : string) : Prop :=
  exists k e rates,
    In (k, e) (items data) /\ rates_of e = Some rates /\ mem currency rates = true.

(** Every anchor is a non-empty code whose rates quote, at a rate that is
    not zero, every code quoted anywhere in the table: what a refresh
    leaves when every fetch succeeds against a server that quotes the same
    codes for each base. *)
Definition complete_table (data : table) : Prop :=
  forall k e,
    In (k, e) (items data) ->
    k <> "" /\
    exists rates,
      rates_of e = Some rates /\
      forall c, quoted data c -> exists q, get c rates = Some q /\ ~ q == 0.

(** No item of the table has rates. *)
Definition no_rates (data : table) : Prop :=
  forall k e, In (k, e) (items data) -> rates_of e = None.

(** A table as two failed fetches leave it. *)
Definition failed_table : table := [("USD", Null); ("EUR", Obj None)].

(** The cache file holding a dump that does not parse, written at [t]. *)
Definition cache_corrupt_at (t : Z) (path : string) : option file :=
  if String.eqb path FILE_NAME
  then Some (MkFile (Return t) None Malformed)
  else None.

(** The second world differs from the first in the cache file and the
    console output at most. *)
Definition same_but_cache (w w' : world) : Prop :=
  (forall path, path <> FILE_NAME -> fs w' path = fs w path) /\
  now w' = now w /\ http w' = http w /\ disk w' = disk w.

(** A computation that, from every world and whether it returns or
    raises, changes the cache file and the console output at most. *)
Definition touches_only_cache {A : Type} (c : IO A) : Prop :=
  forall w, same_but_cache w (snd (c w)).

(** An anchor whose fetch failed, quoted by the anchor after it. *)
Definition shadowed_table : table :=
  [("USD", Null);
   ("EUR", Obj (Some [("EUR", 1); ("USD", 1.1); ("GBP", 0.85)]))].

(** A server that answers every code with status 503. *)
Definition server_unavailable (currency_code : string) : http_outcome :=
  Responds (MkResponse 503 (Raise JSONDecodeError)).

(** ** Facts about dictionaries *)

Section DictFacts.
Context {V : Type}.

Lemma mem_true_get (k : string) (d : dict V) :
  mem k d = true <-> exists v, get k d = Some v.
Proof.
  unfold mem. destruct (get k d) as [v|]; split.
  - intros _. now exists v.
  - reflexivity.
  - discriminate.
  - intros [v Hv]. discriminate.
Qed.

Lemma mem_false_get (k : string) (d : dict V) :
  mem k d = false <-> get k d = None.
Proof.
  unfold mem. destruct (get k d); split; congruence.
Qed.

Lemma get_some_mem (k : string) (d : dict V) (v : V) :
  get k d = Some v -> mem k d = true.
Proof. intros H. apply mem_true_get. now exists v. Qed.

Lemma getitem_get (k : string) (d : dict V) (v : V) :
  get k d = Some v -> getitem d k = Return v.
Proof. unfold getitem. now intros ->. Qed.

Lemma get_in_keys (k : string) (d : dict V) :
  In k (keys d) -> exists v, get k d = Some v.
Proof.
  induction d as [|[k' v'] rest IH]; simpl; [easy|].
  intros [->|Hin].
  - rewrite String.eqb_refl. now exists v'.
  - destruct (String.eqb k k'); [now exists v'|]. now apply IH.
Qed.

Lemma get_not_in_keys (k : string) (d : dict V) :
  ~ In k (keys d) -> get k d = None.
Proof.
  induction d as [|[k' v'] rest IH]; simpl; [easy|].
  intros Hn. destruct (String.eqb_spec k k') as [->|_].
  - exfalso. apply Hn. now left.
  - apply IH. intros Hin. apply Hn. now right.
Qed.

Lemma set_fresh (k : string) (v : V) (d : dict V) :
  ~ In k (keys d) -> set k v d = d ++ [(k, v)].
Proof.
  induction d as [|[k' v'] rest IH]; simpl; [easy|].
  intros Hn. destruct (String.eqb_spec k k') as [->|_].
  - exfalso. apply Hn. now left.
  - rewrite IH; [reflexivity|]. intros Hin. apply Hn. now right.
Qed.

Lemma keys_set (k : string) (v : V) (d : dict V) :
  keys (set k v d) = if mem k d then keys d else keys d ++ [k].
Proof.
  induction d as [|[k' v'] rest IH]; simpl; [reflexivity|].
  unfold mem in *. simpl. destruct (String.eqb k k'); simpl; [reflexivity|].
  rewrite IH. now destruct (get k rest).
Qed.

Lemma get_set_same (k : string) (v : V) (d : dict V) :
  get k (set k v d) = Some v.
Proof.
  induction d as [|[k' v'] rest IH]; simpl.
  - now rewrite String.eqb_refl.
  - destruct (String.eqb k k') eqn:E; simpl; now rewrite E.
Qed.

Lemma get_set_other (k k0 : string) (v : V) (d : dict V) :
  k0 <> k -> get k0 (set k v d) = get k0 d.
Proof.
  intros Hne. induction d as [|[k' v'] rest IH]; simpl.
  - destruct (String.eqb_spec k0 k); [contradiction|reflexivity].
  - destruct (String.eqb_spec k k') as [->|_]; simpl.
    + destruct (String.eqb_spec k0 k'); [contradiction|reflexivity].
    + now rewrite IH.
Qed.

End DictFacts.

(** ** The anchor scan *)

Lemma scan_rates_first (l1 l2 : list (string * entry)) (a : string)
  (e : entry) (rates : dict Q) (currency : string) :
  unquoted l1 currency ->
  rates_of e = Some rates ->
  mem currency rates = true ->
  scan_rates (l1 ++ (a, e) :: l2) currency = Some a.
Proof.
  intros Hl1 He Hm. induction l1 as [|[k x] l1 IH]; simpl.
  - now rewrite He, Hm.
  - destruct (rates_of x) as [r|] eqn:Ex.
    + rewrite (Hl1 k x r (or_introl eq_refl) Ex).
      apply IH. intros k' e' r' Hin. apply (Hl1 k' e' r'). now right.
    + apply IH. intros k' e' r' Hin. apply (Hl1 k' e' r'). now right.
Qed.

Lemma scan_rates_none (its : list (string * entry)) (currency : string) :
  unquoted its currency <-> scan_rates its currency = None.
Proof.
  induction its as [|[k x] its IH]; simpl.
  - split; [reflexivity|]. intros _ k e r [].
  - split.
    + intros Hu. destruct (rates_of x) as [r|] eqn:Ex.
      * rewrite (Hu k x r (or_introl eq_refl) Ex).
        apply IH. intros k' e' r' Hin. apply (Hu k' e' r'). now right.
      * apply IH. intros k' e' r' Hin. apply (Hu k' e' r'). now right.
    + intros Hs k' e' r' [Heq|Hin] He'.
      * inversion Heq; subst. rewrite He' in Hs.
        destruct (mem currency r'); [discriminate|reflexivity].
      * destruct (rates_of x) as [r|].
        -- destruct (mem currency r); [discriminate|].
           apply IH in Hs. now apply (Hs k' e' r').
        -- apply IH in Hs. now apply (Hs k' e' r').
Qed.

Lemma scan_rates_found (its : list (string * entry)) (currency a : string) :
  scan_rates its currency = Some a ->
  exists l1 e rates l2,
    its = l1 ++ (a, e) :: l2 /\ unquoted l1 currency /\
    rates_of e = Some rates /\ mem currency rates = true.
Proof.
  induction its as [|[k x] its IH]; simpl; [discriminate|].
  intros Hs.
  assert (Hstep : scan_rates its currency = Some a ->
                  (forall r, rates_of x = Some r -> mem currency r = false) ->
                  exists l1 e rates l2,
                    (k, x) :: its = l1 ++ (a, e) :: l2 /\ unquoted l1 currency /\
                    rates_of e = Some rates /\ mem currency rates = true).
  { intros Hrest Hx. destruct (IH Hrest) as (l1 & e & r & l2 & -> & Hu & He & Hm).
    exists ((k, x) :: l1), e, r, l2. repeat split; try assumption.
    intros k' e' r' [Heq|Hin] He'.
    - inversion Heq; subst. now apply Hx.
    - now apply (Hu k' e' r'). }
  destruct (rates_of x) as [r|] eqn:Ex.
  - destruct (mem currency r) eqn:Em.
    + inversion Hs; subst. exists [], x, r, its. repeat split; try assumption.
      intros k' e' r' [].
    + apply Hstep; [assumption|]. intros r0 Hr0. now inversion Hr0; subst.
  - apply Hstep; [assumption|]. intros r0 Hr0. discriminate.
Qed.

Lemma scan_rates_key (its : list (string * entry)) (currency a : string) :
  scan_rates its currency = Some a -> In a (keys its).
Proof.
  intros Hs. destruct (scan_rates_found _ _ _ Hs) as (l1 & e & r & l2 & -> & _).
  unfold keys. rewrite map_app. apply in_or_app. right. now left.
Qed.

Lemma find_base_currency_key (data : table) (currency a : string) :
  find_base_currency data currency = Some a -> exists e, get a data = Some e.
Proof.
  unfold find_base_currency. destruct (mem currency data) eqn:Em.
  - intros Heq. inversion Heq; subst. now apply mem_true_get.
  - intros Hs. apply get_in_keys. now apply scan_rates_key in Hs.
Qed.

(** ** The resolver of [currency_converter.py] *)

Lemma falsy_some (a : string) : a <> "" -> falsy (Some a) = false.
Proof. intros Ha. simpl. now destruct (String.eqb_spec a ""). Qed.

Lemma py_truediv_nonzero (a b : Q) :
  ~ b == 0 -> py_truediv a b = Return (a / b).
Proof.
  intros Hb. unfold py_truediv. destruct (Qeq_bool b 0) eqn:E; [|reflexivity].
  apply Qeq_bool_eq in E. contradiction.
Qed.

(** Over the rationals the resolver always comes back with an answer. *)
Lemma get_exchange_rate_returns (data : table) (from_currency to_currency : string) :
  exists r, get_exchange_rate data from_currency to_currency = Return r.
Proof.
  unfold get_exchange_rate.
  destruct (String.eqb from_currency to_currency); [now eexists|].
  destruct (find_base_currency data from_currency) as [a|] eqn:Ea;
    cbv zeta; [|now eexists].
  destruct (falsy (Some a)); [now eexists|].
  destruct (find_base_currency_key _ _ _ Ea) as [e He].
  rewrite (getitem_get _ _ _ He). simpl.
  destruct (rates_of e) as [rates|]; [|now eexists].
  destruct (mem from_currency rates) eqn:Ef; [|now eexists].
  destruct (mem to_currency rates) eqn:Et; [|now eexists].
  apply mem_true_get in Ef as [rf Hf]. apply mem_true_get in Et as [rt Ht].
  rewrite (getitem_get _ _ _ Hf), (getitem_get _ _ _ Ht). simpl.
  destruct (Qeq_bool rf 0) eqn:E0; [now eexists|].
  unfold py_truediv. rewrite E0. now eexists.
Qed.

Lemma exchange_same_code (data : table) (c : string) :
  get_exchange_rate data c c = Return (Some 1).
Proof. unfold get_exchange_rate. now rewrite String.eqb_refl. Qed.

Lemma exchange_quotient (data : table) (from_currency to_currency a : string)
  (e : entry) (rates : dict Q) (rf rt : Q) :
  from_currency <> to_currency ->
  find_base_currency data from_currency = Some a -> a <> "" ->
  get a data = Some e -> rates_of e = Some rates ->
  get from_currency rates = Some rf -> get to_currency rates = Some rt ->
  ~ rf == 0 ->
  get_exchange_rate data from_currency to_currency = Return (Some (rt / rf)).
Proof.
  intros Hne Ha Hna He Hr Hf Ht Hz. unfold get_exchange_rate.
  destruct (String.eqb_spec from_currency to_currency); [contradiction|].
  rewrite Ha. cbv zeta. rewrite (falsy_some _ Hna), (getitem_get _ _ _ He).
  simpl. rewrite Hr, (get_some_mem _ _ _ Hf), (get_some_mem _ _ _ Ht).
  rewrite (getitem_get _ _ _ Hf), (getitem_get _ _ _ Ht). simpl.
  destruct (Qeq_bool rf 0) eqn:E0; [apply Qeq_bool_eq in E0; contradiction|].
  now rewrite (py_truediv_nonzero _ _ Hz).
Qed.

(** C8. [find_base_currency] (and its twin in [currency.py],
    [find_base_currency_for_currency]) returns the code itself when it is a
    top-level key of the table; otherwise the anchor of the first item, in
    iteration order, whose rates hold the code, whatever follows that item;
    and [None] exactly when no item's rates hold it. *)
Theorem find_base_currency_first_anchor (data : table) (code : string) :
  find_base_currency_for_currency data code = find_base_currency data code /\
  (mem code data = true -> find_base_currency data code = Some code) /\
  (mem code data = false ->
   forall l1 a e rates l2,
     items data = l1 ++ (a, e) :: l2 ->
     unquoted l1 code ->
     rates_of e = Some rates -> mem code rates = true ->
     find_base_currency data code = Some a) /\
  (mem code data = false ->
   (unquoted (items data) code <-> find_base_currency data code = None)).
Proof.
  unfold find_base_currency_for_currency, find_base_currency.
  split; [reflexivity|]. split; [|split].
  - now intros ->.
  - intros -> l1 a e rates l2 -> Hu He Hm.
    exact (scan_rates_first l1 l2 a e rates code Hu He Hm).
  - intros ->. apply scan_rates_none.
Qed.

Lemma find_base_currency_first_anchor_witness :
  find_base_currency shared_code_table "USD" = Some "USD" /\
  find_base_currency shared_code_table "JPY" = Some "EUR" /\
  find_base_currency shared_code_table "CHF" = None.
Proof.
  split; [|split].
  - apply (proj1 (proj2 (find_base_currency_first_anchor shared_code_table "USD"))).
    reflexivity.
  - apply (proj1 (proj2 (proj2 (find_base_currency_first_anchor shared_code_table "JPY"))))
      with (l1 := [("USD", Null)]) (e := Obj (Some [("EUR", 1); ("JPY", 160)]))
           (rates := [("EUR", 1); ("JPY", 160)])
           (l2 := [("GBP", Obj (Some [("GBP", 1); ("JPY", 190)]))]).
    + reflexivity.
    + reflexivity.
    + intros k e r [H|[]] Hr. inversion H; subst. discriminate.
    + reflexivity.
    + reflexivity.
  - apply (proj2 (proj2 (proj2 (find_base_currency_first_anchor shared_code_table "CHF")))).
    + reflexivity.
    + intros k e r [H|[H|[H|[]]]] Hr; inversion H; subst; simpl in Hr;
        try discriminate; inversion Hr; subst; reflexivity.
Defined.

(** C9. Whatever the table (empty, or with entries that lack rates) and
    whatever the string, a code exchanges with itself at rate 1: the test
    [from_currency == to_currency] comes before any lookup. *)
Theorem get_exchange_rate_same_code (data : table) (c : string) :
  get_exchange_rate data c c = Return (Some 1).
Proof. apply exchange_same_code. Qed.

(** C1. [get_exchange_rate] returns 1 for equal codes.  For different
    codes it resolves the anchor of [from_currency] and works in that
    anchor's rates alone: with both codes quoted there it returns
    [rates[to] / rates[from]] (the quotient exists when [rates[from]] is
    not zero; codes are not empty, so neither is the anchor); it returns
    [None] when no anchor is found, when the anchor has no rates, and when
    either code is missing from them. *)
Theorem get_exchange_rate_spec (data : table) (from_currency to_currency : string) :
  (from_currency = to_currency ->
   get_exchange_rate data from_currency to_currency = Return (Some 1)) /\
  (from_currency <> to_currency ->
   forall a e rates rf rt,
     find_base_currency data from_currency = Some a -> a <> "" ->
     get a data = Some e -> rates_of e = Some rates ->
     get from_currency rates = Some rf -> get to_currency rates = Some rt ->
     ~ rf == 0 ->
     get_exchange_rate data from_currency to_currency = Return (Some (rt / rf))) /\
  (from_currency <> to_currency ->
   find_base_currency data from_currency = None ->
   get_exchange_rate data from_currency to_currency = Return None) /\
  (from_currency <> to_currency ->
   forall a e,
     find_base_currency data from_currency = Some a ->
     get a data = Some e ->
     (rates_of e = None \/
      exists rates, rates_of e = Some rates /\
        (get from_currency rates = None \/ get to_currency rates = None)) ->
     get_exchange_rate data from_currency to_currency = Return None).
Proof.
  repeat split.
  - intros ->. apply exchange_same_code.
  - intros Hne a e rates rf rt Ha Hna He Hr Hf Ht Hz.
    now apply exchange_quotient with a e rates.
  - intros Hne Ha. unfold get_exchange_rate.
    destruct (String.eqb_spec from_currency to_currency); [contradiction|].
    now rewrite Ha.
  - intros Hne a e Ha He Hcase. unfold get_exchange_rate.
    destruct (String.eqb_spec from_currency to_currency); [contradiction|].
    rewrite Ha. cbv zeta. destruct (falsy (Some a)); [reflexivity|].
    rewrite (getitem_get _ _ _ He). simpl.
    destruct Hcase as [Hr|(rates & Hr & Hcase)]; rewrite Hr; [reflexivity|].
    destruct Hcase as [H|H]; apply mem_false_get in H; rewrite H;
      [reflexivity|now rewrite andb_false_r].
Qed.

Lemma get_exchange_rate_spec_witness :
  get_exchange_rate sample_table "EUR" "EUR" = Return (Some 1) /\
  get_exchange_rate sample_table "EUR" "GBP" = Return (Some (0.8 / 0.9)) /\
  get_exchange_rate sample_table "JPY" "EUR" = Return None /\
  get_exchange_rate shared_code_table "JPY" "GBP" = Return None.
Proof.
  split; [|split; [|split]].
  - apply (proj1 (get_exchange_rate_spec sample_table "EUR" "EUR")). reflexivity.
  - apply (proj1 (proj2 (get_exchange_rate_spec sample_table "EUR" "GBP")))
      with (a := "USD") (e := Obj (Some usd_rates)) (rates := usd_rates).
    + discriminate.
    + reflexivity.
    + discriminate.
    + reflexivity.
    + reflexivity.
    + reflexivity.
    + reflexivity.
    + discriminate.
  - apply (proj1 (proj2 (proj2 (get_exchange_rate_spec sample_table "JPY" "EUR")))).
    + discriminate.
    + reflexivity.
  - apply (proj2 (proj2 (proj2 (get_exchange_rate_spec shared_code_table "JPY" "GBP"))))
      with (a := "EUR") (e := Obj (Some [("EUR", 1); ("JPY", 160)])).
    + discriminate.
    + reflexivity.
    + reflexivity.
    + right. exists [("EUR", 1); ("JPY", 160)]. split; [reflexivity|].
      right. reflexivity.
Defined.

(** C10. [get_exchange_rate] never raises [ZeroDivisionError]: when the
    rate of [from_currency] under its anchor is zero it returns [None]
    before the division, so the division is only ever reached with a
    divisor that is not zero. *)
Theorem get_exchange_rate_zero_guard (data : table) (from_currency to_currency : string) :
  get_exchange_rate data from_currency to_currency <> Raise ZeroDivisionError /\
  (from_currency <> to_currency ->
   forall a e rates rf,
     find_base_currency data from_currency = Some a ->
     get a data = Some e -> rates_of e = Some rates ->
     get from_currency rates = Some rf -> rf == 0 ->
     get_exchange_rate data from_currency to_currency = Return None).
Proof.
  split.
  - destruct (get_exchange_rate_returns data from_currency to_currency)
      as [r ->]. discriminate.
  - intros Hne a e rates rf Ha He Hr Hf Hz. unfold get_exchange_rate.
    destruct (String.eqb_spec from_currency to_currency); [contradiction|].
    rewrite Ha. cbv zeta. destruct (falsy (Some a)); [reflexivity|].
    rewrite (getitem_get _ _ _ He). simpl. rewrite Hr.
    rewrite (get_some_mem _ _ _ Hf). simpl.
    destruct (mem to_currency rates) eqn:Et; [|reflexivity].
    apply mem_true_get in Et as [rt Ht].
    rewrite (getitem_get _ _ _ Hf), (getitem_get _ _ _ Ht). simpl.
    now rewrite (Qeq_eq_bool _ _ Hz).
Qed.

Lemma get_exchange_rate_zero_guard_witness :
  get_exchange_rate zero_rate_table "USD" "EUR" = Return None.
Proof.
  apply (proj2 (get_exchange_rate_zero_guard zero_rate_table "USD" "EUR"))
    with (a := "USD") (e := Obj (Some [("USD", 0); ("EUR", 0.9)]))
         (rates := [("USD", 0); ("EUR", 0.9)]) (rf := 0).
  - discriminate.
  - reflexivity.
  - reflexivity.
  - reflexivity.
  - reflexivity.
  - reflexivity.
Defined.

(** C5 without the same-anchor condition does not hold.  With two anchors
    that quote each other, both codes are quoted at nonzero rates under one
    anchor, yet each direction is resolved under the anchor of its own
    source code and the product of the two rates is not 1. *)
Lemma inverse_rates_across_anchors :
  ~ (forall (data : table) (x y a : string) (e : entry) (rates : dict Q) (rx ry : Q),
        get a data = Some e -> rates_of e = Some rates ->
        get x rates = Some rx -> get y rates = Some ry ->
        ~ rx == 0 -> ~ ry == 0 ->
        exists p q,
          get_exchange_rate data x y = Return (Some p) /\
          get_exchange_rate data y x = Return (Some q) /\
          p * q == 1).
Proof.
  intros H.
  destruct (H two_anchor_table "USD" "EUR" "USD"
              (Obj (Some [("USD", 1); ("EUR", 0.9)])) [("USD", 1); ("EUR", 0.9)]
              1 0.9 eq_refl eq_refl eq_refl eq_refl)
    as (p & q & Hp & Hq & Hpq); try discriminate.
  vm_compute in Hp, Hq. inversion Hp; subst. inversion Hq; subst.
  vm_compute in Hpq. discriminate.
Qed.

(** C5, for one common anchor.  When [find_base_currency] picks the same
    anchor for [x] and for [y], and that anchor quotes both at rates that
    are not zero, the two exchange rates exist and their product is 1. *)
Theorem inverse_rates_same_anchor (data : table) (x y a : string) (e : entry)
  (rates : dict Q) (rx ry : Q) :
  find_base_currency data x = Some a ->
  find_base_currency data y = Some a ->
  a <> "" ->
  get a data = Some e -> rates_of e = Some rates ->
  get x rates = Some rx -> get y rates = Some ry ->
  ~ rx == 0 -> ~ ry == 0 ->
  exists p q,
    get_exchange_rate data x y = Return (Some p) /\
    get_exchange_rate data y x = Return (Some q) /\
    p * q == 1.
Proof.
  intros Hx Hy Ha He Hr Hgx Hgy Hzx Hzy.
  destruct (String.eqb_spec x y) as [->|Hne].
  - exists 1, 1. rewrite exchange_same_code. repeat split; reflexivity.
  - exists (ry / rx), (rx / ry). repeat split.
    + now apply exchange_quotient with a e rates.
    + apply exchange_quotient with a e rates; try assumption.
      now apply not_eq_sym.
    + field. split; assumption.
Qed.

Lemma inverse_rates_same_anchor_witness :
  exists p q,
    get_exchange_rate sample_table "EUR" "GBP" = Return (Some p) /\
    get_exchange_rate sample_table "GBP" "EUR" = Return (Some q) /\
    p * q == 1.
Proof.
  apply (inverse_rates_same_anchor sample_table "EUR" "GBP" "USD"
           (Obj (Some usd_rates)) usd_rates 0.9 0.8);
    try reflexivity; discriminate.
Defined.

(** ** The converter *)

(** C3 does not hold of [convert_currency]: it has no test on the sign of
    the amount, and a negative amount is looked up and multiplied like any
    other. *)
Lemma convert_currency_accepts_negative :
  ~ (forall (data : table) (amount : Q) (from_currency to_currency : string),
        amount < 0 ->
        forall v, convert_currency data amount from_currency to_currency
                  <> Return (Some v)).
Proof.
  intros H.
  apply (H sample_table (-5) "EUR" "GBP" eq_refl (-5 * (0.8 / 0.9))).
  reflexivity.
Qed.

(** C3, as the code has it.  [convert_currency] applies the resolved rate
    to any amount, negative ones included, and returns [None] exactly as
    the resolver does; the rejection of a negative amount belongs to the
    menu of [main], which, once both codes are among the listed ones,
    answers a negative amount without calling the conversion routine at
    all. *)
Theorem convert_currency_sign_blind (data : table) (amount : Q)
  (from_currency to_currency : string) :
  (forall r,
     get_exchange_rate data from_currency to_currency = Return (Some r) ->
     convert_currency data amount from_currency to_currency
     = Return (Some (amount * r))) /\
  (get_exchange_rate data from_currency to_currency = Return None ->
   convert_currency data amount from_currency to_currency = Return None) /\
  (forall convert available_currencies,
     in_list from_currency available_currencies = true ->
     in_list to_currency available_currencies = true ->
     amount < 0 ->
     convert_choice_with convert data available_currencies
       from_currency to_currency (Some amount) = NegativeAmount).
Proof.
  unfold convert_currency. repeat split.
  - now intros r ->.
  - now intros ->.
  - intros convert available Hf Ht Hneg. unfold convert_choice_with.
    rewrite Hf, Ht. simpl.
    destruct (Qle_bool 0 amount) eqn:E; [|reflexivity].
    apply Qle_bool_imp_le in E. exfalso. now apply (Qlt_not_le _ _ Hneg).
Qed.

Lemma convert_currency_sign_blind_witness :
  convert_currency sample_table (-5) "EUR" "GBP" = Return (Some (-5 * (0.8 / 0.9))) /\
  convert_currency sample_table (-5) "EUR" "JPY" = Return None /\
  convert_choice sample_table "EUR" "GBP" (Some (-5)) = NegativeAmount.
Proof.
  split; [|split].
  - apply (proj1 (convert_currency_sign_blind sample_table (-5) "EUR" "GBP")).
    reflexivity.
  - apply (proj1 (proj2 (convert_currency_sign_blind sample_table (-5) "EUR" "JPY"))).
    reflexivity.
  - apply (proj2 (proj2 (convert_currency_sign_blind sample_table (-5) "EUR" "GBP")));
      reflexivity.
Defined.

(** ** The resolver of [currency.py] *)

Lemma rebase_loop_fresh (its : list (string * Q)) (base_currency : string)
  (b : Q) (acc : dict Q) :
  ~ b == 0 ->
  NoDup (keys acc ++ keys its) ->
  rebase_loop its base_currency b acc
  = Return (acc ++ spec_rebased_rates its base_currency b).
Proof.
  intros Hb. revert acc.
  induction its as [|[c r] its IH]; intros acc Hnd; simpl.
  - now rewrite app_nil_r.
  - assert (Hfresh : ~ In c (keys acc)).
    { intros Hin. apply NoDup_remove_2 in Hnd. apply Hnd.
      apply in_or_app. now left. }
    assert (Hnd' : forall v, NoDup (keys (acc ++ [(c, v)]) ++ keys its)).
    { intros v. unfold keys in *. rewrite map_app, <- app_assoc. exact Hnd. }
    destruct (String.eqb c base_currency).
    + rewrite (set_fresh _ _ _ Hfresh), IH by apply Hnd'.
      now rewrite <- app_assoc.
    + rewrite (py_truediv_nonzero _ _ Hb). simpl.
      rewrite (set_fresh _ _ _ Hfresh), IH by apply Hnd'.
      now rewrite <- app_assoc.
Qed.

Lemma keys_spec_rebased (rates : dict Q) (base_code : string) (b : Q) :
  keys (spec_rebased_rates rates base_code b) = keys rates.
Proof.
  unfold keys, spec_rebased_rates. rewrite map_map. reflexivity.
Qed.

Lemma get_spec_rebased (rates : dict Q) (base_code : string) (b : Q)
  (c : string) (r : Q) :
  get c rates = Some r ->
  get c (spec_rebased_rates rates base_code b)
  = Some (if String.eqb c base_code then 1 else r / b).
Proof.
  induction rates as [|[k v] rates IH]; simpl; [discriminate|].
  destruct (String.eqb_spec c k) as [->|_]; [|exact IH].
  intros Heq. now inversion Heq; subst.
Qed.

(** C2. [get_rates_for_base_currency] returns the rates of [base_currency]
    as they are when it is an anchor with rates.  For a code that is not an
    anchor it takes the anchor [find_base_currency_for_currency] gives (a
    code, so not the empty string) and that anchor's rate [b] of the code:
    the answer is [None] when [b] is zero, and otherwise the rebased
    mapping, which has the anchor's codes in the anchor's order, quotes the
    base code at exactly 1 and every other code at [rate / b].  An anchor
    stored without rates, and a code no anchor quotes, give [None].  On the
    sample table rebased to EUR it is USD: 1/0.9, EUR: 1, GBP: 0.8/0.9. *)
Theorem get_rates_for_base_currency_spec (data : table) (base_currency : string) :
  (forall e rates,
     get base_currency data = Some e -> rates_of e = Some rates ->
     get_rates_for_base_currency data base_currency = Return (Some rates)) /\
  (mem base_currency data = false ->
   forall a e rates b,
     find_base_currency_for_currency data base_currency = Some a -> a <> "" ->
     get a data = Some e -> rates_of e = Some rates ->
     get base_currency rates = Some b ->
     (b == 0 -> get_rates_for_base_currency data base_currency = Return None) /\
     (~ b == 0 -> wf rates ->
      let new_rates := spec_rebased_rates rates base_currency b in
      get_rates_for_base_currency data base_currency = Return (Some new_rates) /\
      keys new_rates = keys rates /\
      get base_currency new_rates = Some 1 /\
      forall c r, c <> base_currency -> get c rates = Some r ->
                  get c new_rates = Some (r / b))) /\
  (forall e,
     get base_currency data = Some e -> rates_of e = None ->
     get_rates_for_base_currency data base_currency = Return None) /\
  (find_base_currency_for_currency data base_currency = None ->
   get_rates_for_base_currency data base_currency = Return None) /\
  get_rates_for_base_currency sample_table "EUR"
  = Return (Some [("USD", 1 / 0.9); ("EUR", 1); ("GBP", 0.8 / 0.9)]).
Proof.
  split; [|split; [|split; [|split]]].
  - intros e rates He Hr. unfold get_rates_for_base_currency.
    rewrite (get_some_mem _ _ _ He), (getitem_get _ _ _ He). simpl.
    now rewrite Hr.
  - intros Hm a e rates b Ha Hna He Hr Hb.
    assert (Hstart : get_rates_for_base_currency data base_currency
                     = (if Qeq_bool b 0 then Return None
                        else (new_rates <- rebase_loop (items rates) base_currency b [] ;;
                              Return (Some new_rates))%result)).
    { unfold get_rates_for_base_currency. rewrite Hm. simpl. rewrite Ha.
      cbv zeta. rewrite (falsy_some _ Hna), (getitem_get _ _ _ He). simpl.
      rewrite Hr, (get_some_mem _ _ _ Hb), (getitem_get _ _ _ Hb). reflexivity. }
    rewrite Hstart. split.
    + intros Hz. now rewrite (Qeq_eq_bool _ _ Hz).
    + intros Hz Hwf new_rates.
      destruct (Qeq_bool b 0) eqn:E0; [apply Qeq_bool_eq in E0; contradiction|].
      rewrite (rebase_loop_fresh _ _ _ [] Hz Hwf). simpl.
      split; [reflexivity|]. split; [apply keys_spec_rebased|]. split.
      * unfold new_rates. rewrite (get_spec_rebased _ _ _ _ _ Hb).
        now rewrite String.eqb_refl.
      * intros c r Hc Hg. unfold new_rates. rewrite (get_spec_rebased _ _ _ _ _ Hg).
        now destruct (String.eqb_spec c base_currency).
  - intros e He Hr. unfold get_rates_for_base_currency, find_base_currency_for_currency.
    rewrite (get_some_mem _ _ _ He), (getitem_get _ _ _ He). simpl.
    rewrite Hr. now destruct (String.eqb base_currency "").
  - intros Hnone. unfold get_rates_for_base_currency. rewrite Hnone.
    assert (Hm : mem base_currency data = false).
    { unfold find_base_currency_for_currency in Hnone.
      destruct (mem base_currency data); [discriminate|reflexivity]. }
    now rewrite Hm.
  - reflexivity.
Qed.

Lemma get_rates_for_base_currency_spec_witness :
  get_rates_for_base_currency sample_table "USD" = Return (Some usd_rates) /\
  get_rates_for_base_currency dead_quote_table "XXX" = Return None /\
  get_rates_for_base_currency zero_rate_table "EUR"
  = Return (Some [("USD", 0 / 0.9); ("EUR", 1)]) /\
  get_rates_for_base_currency shared_code_table "USD" = Return None /\
  get_rates_for_base_currency sample_table "JPY" = Return None.
Proof.
  split; [|split; [|split; [|split]]].
  - apply (proj1 (get_rates_for_base_currency_spec sample_table "USD"))
      with (e := Obj (Some usd_rates)); reflexivity.
  - apply (proj1 (proj1 (proj2 (get_rates_for_base_currency_spec dead_quote_table "XXX"))
                    eq_refl "USD" (Obj (Some [("USD", 1); ("XXX", 0)]))
                    [("USD", 1); ("XXX", 0)] 0
                    eq_refl ltac:(discriminate) eq_refl eq_refl eq_refl)).
    reflexivity.
  - apply (proj2 (proj1 (proj2 (get_rates_for_base_currency_spec zero_rate_table "EUR"))
                    eq_refl "USD" (Obj (Some [("USD", 0); ("EUR", 0.9)]))
                    [("USD", 0); ("EUR", 0.9)] 0.9
                    eq_refl ltac:(discriminate) eq_refl eq_refl eq_refl)).
    + discriminate.
    + repeat constructor; simpl; intuition discriminate.
  - apply (proj1 (proj2 (proj2 (get_rates_for_base_currency_spec shared_code_table "USD"))))
      with (e := Null); reflexivity.
  - apply (proj1 (proj2 (proj2 (proj2
             (get_rates_for_base_currency_spec sample_table "JPY"))))).
    reflexivity.
Defined.

(** ** The freshness test *)

(** C6. [is_file_older_than_24_hours] answers [True] when the file is
    absent, when probing its age raises, and when its last modification is
    more than 24 hours before now; it answers [False] when the last
    modification is at most 24 hours old, one minute ago for instance. *)
Theorem is_file_older_than_24_hours_spec (w : world) (file_path : string) :
  (fs w file_path = None ->
   fst (is_file_older_than_24_hours file_path w) = Return true) /\
  (forall f e,
     fs w file_path = Some f -> file_time f = Raise e ->
     fst (is_file_older_than_24_hours file_path w) = Return true) /\
  (forall f t,
     fs w file_path = Some f -> file_time f = Return t ->
     (hours_24 < now w - t)%Z ->
     fst (is_file_older_than_24_hours file_path w) = Return true) /\
  (forall f t,
     fs w file_path = Some f -> file_time f = Return t ->
     (now w - t <= hours_24)%Z ->
     fst (is_file_older_than_24_hours file_path w) = Return false) /\
  (forall f,
     fs w file_path = Some f -> file_time f = Return (now w - one_minute)%Z ->
     fst (is_file_older_than_24_hours file_path w) = Return false).
Proof.
  assert (Hfresh : forall f t,
             fs w file_path = Some f -> file_time f = Return t ->
             (now w - t <= hours_24)%Z ->
             fst (is_file_older_than_24_hours file_path w) = Return false).
  { intros f t Hf Ht Hage.
    unfold is_file_older_than_24_hours, io_bind, path_exists, try_except,
      probe_file_time, datetime_now, io_ret.
    rewrite Hf. simpl. rewrite Hf, Ht. simpl.
    f_equal. apply Z.ltb_ge. exact Hage. }
  repeat split.
  - intros Hf.
    unfold is_file_older_than_24_hours, io_bind, path_exists. now rewrite Hf.
  - intros f e Hf Ht.
    unfold is_file_older_than_24_hours, io_bind, path_exists, try_except,
      probe_file_time.
    rewrite Hf. simpl. rewrite Hf, Ht. reflexivity.
  - intros f t Hf Ht Hage.
    unfold is_file_older_than_24_hours, io_bind, path_exists, try_except,
      probe_file_time, datetime_now, io_ret.
    rewrite Hf. simpl. rewrite Hf, Ht. simpl.
    f_equal. apply Z.ltb_lt. exact Hage.
  - exact Hfresh.
  - intros f Hf Ht. apply (Hfresh f _ Hf Ht). unfold one_minute, hours_24. lia.
Qed.

Lemma is_file_older_than_24_hours_spec_witness :
  fst (is_file_older_than_24_hours FILE_NAME
         (world_at_noon no_files WriteOk server_up)) = Return true /\
  fst (is_file_older_than_24_hours FILE_NAME
         (world_at_noon cache_unreadable WriteOk server_up)) = Return true /\
  fst (is_file_older_than_24_hours FILE_NAME
         (world_at_noon (cache_written_at (noon - hours_24 - 1)) WriteOk server_up))
  = Return true /\
  fst (is_file_older_than_24_hours FILE_NAME
         (world_at_noon (cache_written_at (noon - hours_24)) WriteOk server_up))
  = Return false /\
  fst (is_file_older_than_24_hours FILE_NAME
         (world_at_noon (cache_written_at (noon - one_minute)) WriteOk server_up))
  = Return false.
Proof.
  split; [|split; [|split; [|split]]].
  - apply (proj1 (is_file_older_than_24_hours_spec _ FILE_NAME)). reflexivity.
  - apply (proj1 (proj2 (is_file_older_than_24_hours_spec _ FILE_NAME)))
      with (f := MkFile (Raise PermissionError) (Some PermissionError) Malformed)
           (e := PermissionError); reflexivity.
  - apply (proj1 (proj2 (proj2 (is_file_older_than_24_hours_spec _ FILE_NAME))))
      with (f := MkFile (Return (noon - hours_24 - 1)%Z) None (Json sample_table))
           (t := (noon - hours_24 - 1)%Z); reflexivity.
  - apply (proj1 (proj2 (proj2 (proj2 (is_file_older_than_24_hours_spec _ FILE_NAME)))))
      with (f := MkFile (Return (noon - hours_24)%Z) None (Json sample_table))
           (t := (noon - hours_24)%Z); [reflexivity|reflexivity|].
    vm_compute. discriminate.
  - apply (proj2 (proj2 (proj2 (proj2 (is_file_older_than_24_hours_spec _ FILE_NAME)))))
      with (f := MkFile (Return (noon - one_minute)%Z) None (Json sample_table));
      reflexivity.
Defined.

(** ** Fetching and saving *)

Lemma same_env_refl (w : world) : same_env w w.
Proof. now repeat split. Qed.

Lemma same_env_trans (w1 w2 w3 : world) :
  same_env w1 w2 -> same_env w2 w3 -> same_env w1 w3.
Proof.
  intros (Hf & Hn & Hh & Hd) (Hf' & Hn' & Hh' & Hd').
  repeat split; congruence.
Qed.

Lemma same_env_print (m : message) (w : world) :
  same_env w (snd (print m w)).
Proof. now repeat split. Qed.

Lemma answers_same_env (w w' : world) (c : string) (r : response) :
  same_env w w' -> answers w c r -> answers w' c r.
Proof.
  intros (_ & _ & Hh & _) [Hr Hj]. split; [|exact Hj]. now rewrite Hh.
Qed.

Lemma get_currency_rate_answered (w : world) (c : string) (r : response) :
  answers w c r ->
  exists w', get_currency_rate c w = (Return (spec_fetched_entry r), w') /\
             same_env w w'.
Proof.
  intros [Hr Hj].
  unfold get_currency_rate, io_bind, requests_get, spec_fetched_entry.
  rewrite Hr. destruct (Z.eqb_spec (status_code r) 200) as [E|E]; simpl.
  - destruct (Hj E) as [d Hd]. unfold response_json. rewrite Hd. simpl.
    exists w. split; [reflexivity|apply same_env_refl].
  - eexists. split; [reflexivity|]. now repeat split.
Qed.

Lemma get_currency_rate_raises (w : world) (c : string) (e : exn) :
  fetch_raises w c e -> get_currency_rate c w = (Raise e, w).
Proof.
  unfold get_currency_rate, io_bind, requests_get.
  intros [Hr|(r & Hr & Hs & Hj)]; rewrite Hr; [reflexivity|].
  rewrite Hs. simpl. unfold response_json. now rewrite Hj.
Qed.

Lemma fetch_all_answered (cs : list string) (acc : table) (w : world) :
  (forall c, In c cs -> exists r, answers w c r) ->
  exists t w',
    fetch_all cs acc w = (Return t, w') /\ same_env w w' /\
    (forall c r, In c cs -> answers w c r -> get c t = Some (spec_fetched_entry r)) /\
    (forall c, ~ In c cs -> get c t = get c acc).
Proof.
  revert acc w. induction cs as [|c cs IH]; intros acc w Hall; simpl.
  - exists acc, w. repeat split; try reflexivity. intros c r [].
  - destruct (Hall c (or_introl eq_refl)) as [r Hr].
    destruct (get_currency_rate_answered w c r Hr) as (w1 & Hget & Henv).
    destruct (IH (set c (spec_fetched_entry r) acc) w1) as (t & w' & Hrun & Henv' & Hin & Hout).
    { intros c' Hc'. destruct (Hall c' (or_intror Hc')) as [r' Hr'].
      exists r'. now apply answers_same_env with w. }
    exists t, w'. unfold io_bind. rewrite Hget, Hrun.
    split; [reflexivity|]. split; [now apply same_env_trans with w1|]. split.
    + intros c' r' Hc' Hr'.
      destruct (in_dec string_dec c' cs) as [Hin'|Hnot].
      * apply Hin; [assumption|]. now apply answers_same_env with w.
      * destruct Hc' as [<-|Hc']; [|contradiction].
        rewrite (Hout c Hnot), get_set_same.
        destruct Hr as [Hr _], Hr' as [Hr' _]. congruence.
    + intros c' Hnot. rewrite Hout by (intros H; apply Hnot; now right).
      apply get_set_other. intros ->. apply Hnot. now left.
Qed.

Lemma fetch_all_raises (cs1 cs2 : list string) (c : string) (e : exn)
  (acc : table) (w : world) :
  (forall c', In c' cs1 -> exists r, answers w c' r) ->
  fetch_raises w c e ->
  exists w', fetch_all (cs1 ++ c :: cs2) acc w = (Raise e, w') /\ same_env w w'.
Proof.
  revert acc w. induction cs1 as [|c1 cs1 IH]; intros acc w Hall Hbad; simpl.
  - exists w. unfold io_bind. rewrite (get_currency_rate_raises _ _ _ Hbad).
    split; [reflexivity|apply same_env_refl].
  - destruct (Hall c1 (or_introl eq_refl)) as [r Hr].
    destruct (get_currency_rate_answered w c1 r Hr) as (w1 & Hget & Henv).
    destruct (IH (set c1 (spec_fetched_entry r) acc) w1) as (w' & Hrun & Henv').
    { intros c' Hc'. destruct (Hall c' (or_intror Hc')) as [r' Hr'].
      exists r'. now apply answers_same_env with w. }
    { destruct Henv as (_ & _ & Hh & _). unfold fetch_raises. now rewrite Hh. }
    exists w'. unfold io_bind. rewrite Hget, Hrun.
    split; [reflexivity|now apply same_env_trans with w1].
Qed.

(** The tolerant half of the refresh: a status other than 200 leaves a
    null entry and the loop goes on to the codes that follow. *)
Example fetch_all_tolerates_status :
  fst (fetch_all FAVORITE_CURRENCIES [] (world_at_noon no_files WriteOk server_gbp_404))
  = Return [("USD", Obj (Some usd_rates)); ("EUR", Obj (Some usd_rates));
            ("GBP", Null); ("RUB", Obj (Some usd_rates))].
Proof. reflexivity. Qed.

(** C4.  A refresh survives a status other than 200, not a fetch that
    raises: when the request for one configured code raises (or its body,
    sent with status 200, does not parse), [update_currency_rates] raises
    the same exception, whatever codes follow it; no table is assembled
    and nothing is saved. *)
Theorem update_currency_rates_aborts (w : world) (cs1 cs2 : list string)
  (c : string) (e : exn) :
  (forall c', In c' cs1 -> exists r, answers w c' r) ->
  fetch_raises w c e ->
  exists w',
    update_currency_rates_for (cs1 ++ c :: cs2) w = (Raise e, w') /\
    fs w' = fs w.
Proof.
  intros Hall Hbad. unfold update_currency_rates_for, io_bind.
  destruct (fetch_all_raises cs1 cs2 c e [] w Hall Hbad) as (w' & Hrun & Hf & _).
  exists w'. now rewrite Hrun.
Qed.

Lemma update_currency_rates_aborts_witness :
  exists w',
    update_currency_rates (world_at_noon no_files WriteOk server_eur_down)
    = (Raise ConnectionError, w') /\
    fs w' = no_files.
Proof.
  apply (update_currency_rates_aborts
           (world_at_noon no_files WriteOk server_eur_down)
           ["USD"] ["GBP"; "RUB"] "EUR" ConnectionError).
  - intros c' [<-|[]]. eexists. split; [reflexivity|]. intros _. now eexists.
  - left. reflexivity.
Defined.

Lemma save_to_file_runs (w : world) (data : table) :
  fst (save_to_file data w) = Return tt /\
  match disk w with
  | WriteOk =>
      content_at (snd (save_to_file data w)) FILE_NAME = Some (Json data) /\
      stdout (snd (save_to_file data w)) = stdout w
  | OpenFails e =>
      fs (snd (save_to_file data w)) = fs w /\
      stdout (snd (save_to_file data w)) = stdout w ++ [MsgSaveError e]
  | DumpFails e =>
      content_at (snd (save_to_file data w)) FILE_NAME = Some Malformed /\
      stdout (snd (save_to_file data w)) = stdout w ++ [MsgSaveError e]
  end.
Proof.
  unfold content_at, save_to_file, try_except, io_bind, open_w, json_dump,
    write_file, print.
  destruct (disk w) as [|e|e] eqn:Ed; simpl; rewrite ?Ed; simpl;
    rewrite ?String.eqb_refl; simpl; rewrite ?String.eqb_refl;
    now repeat split.
Qed.

Lemma read_from_file_malformed (w : world) :
  content_at w FILE_NAME = Some Malformed ->
  fst (read_from_file w) = Return None.
Proof.
  unfold content_at, read_from_file, try_except, io_bind, open_r_load.
  destruct (fs w FILE_NAME) as [f|]; simpl; [|discriminate].
  intros Hc. inversion Hc as [Hc']. destruct (read_error f) as [x|].
  - now destruct x.
  - now rewrite Hc'.
Qed.

Lemma is_file_older_same_env (w : world) (path : string) :
  same_env w (snd (is_file_older_than_24_hours path w)).
Proof.
  unfold is_file_older_than_24_hours, io_bind, path_exists, try_except,
    probe_file_time, datetime_now.
  destruct (fs w path) as [f|] eqn:Ef; simpl; [|apply same_env_refl].
  rewrite Ef. destruct (file_time f); simpl; now repeat split.
Qed.

(** C7 does not hold as an all-or-nothing write.  With the cache file
    holding one snapshot and the dump failing after the file has been
    opened for writing, the file afterwards holds neither the old snapshot
    nor the new one. *)
Lemma save_to_file_not_atomic :
  ~ (forall (w : world) (data : table),
        content_at (snd (save_to_file data w)) FILE_NAME = Some (Json data) \/
        content_at (snd (save_to_file data w)) FILE_NAME = content_at w FILE_NAME).
Proof.
  intros H.
  destruct (H (world_at_noon (cache_written_at (noon - one_minute))
                 (DumpFails OSError) server_up) two_anchor_table) as [Hc|Hc];
    vm_compute in Hc; discriminate.
Qed.

(** C7, as the code has it.  [save_to_file] writes in place and never
    raises.  When the write goes through the file holds the new snapshot;
    when the file cannot be opened it is left as it was; when the dump
    fails after the open the file is left without a parsable snapshot.
    Either failure is printed.  The caller,
    [load_or_update_currency_rates], keeps no table in memory: it answers
    with what it reads back from the file, which after a failed dump is
    [None] even though every fetch succeeded. *)
Theorem save_to_file_in_place (w : world) (data : table) :
  fst (save_to_file data w) = Return tt /\
  (disk w = WriteOk ->
   content_at (snd (save_to_file data w)) FILE_NAME = Some (Json data) /\
   stdout (snd (save_to_file data w)) = stdout w) /\
  (forall e, disk w = OpenFails e ->
     fs (snd (save_to_file data w)) = fs w /\
     stdout (snd (save_to_file data w)) = stdout w ++ [MsgSaveError e]) /\
  (forall e, disk w = DumpFails e ->
     content_at (snd (save_to_file data w)) FILE_NAME = Some Malformed /\
     stdout (snd (save_to_file data w)) = stdout w ++ [MsgSaveError e]) /\
  (forall e, disk w = DumpFails e ->
     fst (is_file_older_than_24_hours FILE_NAME w) = Return true ->
     (forall c, In c FAVORITE_CURRENCIES -> exists r, answers w c r) ->
     fst (load_or_update_currency_rates w) = Return None).
Proof.
  destruct (save_to_file_runs w data) as [Hret Hrun].
  split; [exact Hret|]. split; [|split; [|split]].
  - intros Hd. now rewrite Hd in Hrun.
  - intros e Hd. now rewrite Hd in Hrun.
  - intros e Hd. now rewrite Hd in Hrun.
  - intros e Hd Hstale Hall. clear Hrun.
    unfold load_or_update_currency_rates.
    unfold io_bind at 1.
    pose proof (is_file_older_same_env w FILE_NAME) as Henv.
    destruct (is_file_older_than_24_hours FILE_NAME w) as [r w1].
    simpl in Hstale, Henv. subst r.
    unfold io_bind at 1. unfold io_bind at 1. unfold print at 1.
    set (w2 := MkWorld (fs w1) (now w1) (http w1) (disk w1)
                 (stdout w1 ++ [MsgRefreshing])).
    assert (Henv2 : same_env w w2).
    { apply same_env_trans with w1; [assumption|now repeat split]. }
    unfold update_currency_rates, update_currency_rates_for.
    unfold io_bind at 1.
    destruct (fetch_all_answered FAVORITE_CURRENCIES [] w2)
      as (t & w3 & Hfetch & Henv3 & _).
    { intros c Hc. destruct (Hall c Hc) as [r Hr]. exists r.
      now apply answers_same_env with w. }
    rewrite Hfetch. unfold io_bind at 1.
    destruct (save_to_file_runs w3 t) as [Hret3 Hsave].
    assert (Hd3 : disk w3 = DumpFails e).
    { destruct Henv3 as (_ & _ & _ & ->). destruct Henv2 as (_ & _ & _ & ->).
      exact Hd. }
    rewrite Hd3 in Hsave. destruct Hsave as [Hc _].
    destruct (save_to_file t w3) as [r4 w4]. simpl in Hret3, Hc. subst r4.
    unfold print at 1. apply read_from_file_malformed. exact Hc.
Qed.

Lemma save_to_file_in_place_witness :
  content_at (snd (save_to_file two_anchor_table
                     (world_at_noon (cache_written_at (noon - one_minute))
                        WriteOk server_up))) FILE_NAME
  = Some (Json two_anchor_table) /\
  fs (snd (save_to_file two_anchor_table
             (world_at_noon (cache_written_at (noon - one_minute))
                (OpenFails PermissionError) server_up)))
  = cache_written_at (noon - one_minute) /\
  content_at (snd (save_to_file two_anchor_table
                     (world_at_noon (cache_written_at (noon - one_minute))
                        (DumpFails OSError) server_up))) FILE_NAME
  = Some Malformed /\
  fst (load_or_update_currency_rates
         (world_at_noon no_files (DumpFails OSError) server_up)) = Return None.
Proof.
  split; [|split; [|split]].
  - apply (proj1 (proj2 (save_to_file_in_place
             (world_at_noon (cache_written_at (noon - one_minute)) WriteOk server_up)
             two_anchor_table))).
    reflexivity.
  - apply (proj1 (proj2 (proj2 (save_to_file_in_place
             (world_at_noon (cache_written_at (noon - one_minute))
                (OpenFails PermissionError) server_up)
             two_anchor_table))) PermissionError).
    reflexivity.
  - apply (proj1 (proj2 (proj2 (proj2 (save_to_file_in_place
             (world_at_noon (cache_written_at (noon - one_minute))
                (DumpFails OSError) server_up)
             two_anchor_table)))) OSError).
    reflexivity.
  - apply (proj2 (proj2 (proj2 (proj2
             (save_to_file_in_place
                (world_at_noon no_files (DumpFails OSError) server_up)
                sample_table)))) OSError).
    + reflexivity.
    + reflexivity.
    + intros c _. eexists. split; [reflexivity|]. intros _. now eexists.
Defined.

(** ** The listed currencies *)

Lemma in_list_In (c : string) (l : list string) :
  in_list c l = true <-> In c l.
Proof.
  unfold in_list. rewrite existsb_exists. split.
  - intros (x & Hin & Heq). apply String.eqb_eq in Heq. now subst.
  - intros Hin. exists c. split; [assumption|apply String.eqb_refl].
Qed.

Lemma keys_mem {V : Type} (c : string) (d : dict V) :
  In c (keys d) <-> mem c d = true.
Proof.
  split.
  - intros Hin. apply mem_true_get. now apply get_in_keys.
  - intros Hm. destruct (in_dec string_dec c (keys d)) as [Hin|Hnot];
      [assumption|].
    apply get_not_in_keys in Hnot. apply mem_false_get in Hnot. congruence.
Qed.

Lemma set_add_In (c x : string) (s : list string) :
  In x (set_add c s) <-> x = c \/ In x s.
Proof.
  induction s as [|c' s IH]; simpl.
  - intuition.
  - destruct (String.eqb_spec c c') as [->|Hne]; simpl; intuition.
Qed.

Lemma set_add_NoDup (c : string) (s : list string) :
  NoDup s -> NoDup (set_add c s).
Proof.
  induction s as [|c' s IH]; simpl; intros Hnd.
  - constructor; [intros []|constructor].
  - destruct (String.eqb_spec c c') as [->|Hne]; [assumption|].
    inversion Hnd as [|? ? Hnot Hnd']; subst. constructor; [|now apply IH].
    rewrite set_add_In. intros [->|Hin]; [now apply Hne|contradiction].
Qed.

Lemma set_update_In (x : string) (cs s : list string) :
  In x (set_update s cs) <-> In x s \/ In x cs.
Proof.
  unfold set_update. revert s. induction cs as [|c cs IH]; intros s; simpl.
  - intuition.
  - rewrite IH, set_add_In. intuition.
Qed.

Lemma set_update_NoDup (cs s : list string) :
  NoDup s -> NoDup (set_update s cs).
Proof.
  unfold set_update. revert s. induction cs as [|c cs IH]; intros s Hnd; simpl.
  - assumption.
  - apply IH. now apply set_add_NoDup.
Qed.

Lemma sorted_insert_In (c x : string) (l : list string) :
  In x (sorted_insert c l) <-> x = c \/ In x l.
Proof.
  induction l as [|c' l IH]; simpl.
  - intuition.
  - destruct (String.leb c c'); simpl; [intuition|]. rewrite IH. intuition.
Qed.

Lemma sorted_In (x : string) (l : list string) :
  In x (sorted l) <-> In x l.
Proof.
  unfold sorted. induction l as [|c l IH]; simpl.
  - reflexivity.
  - rewrite sorted_insert_In, IH. intuition.
Qed.

Lemma sorted_insert_NoDup (c : string) (l : list string) :
  NoDup l -> ~ In c l -> NoDup (sorted_insert c l).
Proof.
  induction l as [|c' l IH]; simpl; intros Hnd Hnot.
  - constructor; [intros []|constructor].
  - destruct (String.leb c c').
    + constructor; assumption.
    + inversion Hnd as [|? ? Hnot' Hnd']; subst. constructor.
      * rewrite sorted_insert_In. intros [->|Hin]; [|contradiction].
        apply Hnot. now left.
      * apply IH; [assumption|]. intros Hin. apply Hnot. now right.
Qed.

Lemma sorted_NoDup (l : list string) : NoDup l -> NoDup (sorted l).
Proof.
  unfold sorted. induction l as [|c l IH]; simpl; intros Hnd.
  - constructor.
  - inversion Hnd as [|? ? Hnot Hnd']; subst.
    apply sorted_insert_NoDup; [now apply IH|].
    intros Hin. apply Hnot. now apply sorted_In.
Qed.

Lemma string_leb_trans (s1 s2 s3 : string) :
  String.leb s1 s2 = true -> String.leb s2 s3 = true -> String.leb s1 s3 = true.
Proof.
  unfold String.leb.
  assert (H : forall a b c,
             String.compare a b <> Gt -> String.compare b c <> Gt ->
             String.compare a c <> Gt).
  { induction a as [|x a IH]; intros [|y b] [|z c]; simpl; try congruence.
    unfold Ascii.compare.
    destruct (N.compare_spec (Ascii.N_of_ascii x) (Ascii.N_of_ascii y)) as [E1|E1|E1],
             (N.compare_spec (Ascii.N_of_ascii y) (Ascii.N_of_ascii z)) as [E2|E2|E2],
             (N.compare_spec (Ascii.N_of_ascii x) (Ascii.N_of_ascii z)) as [E3|E3|E3];
      try congruence; try lia.
    apply IH. }
  intros H12 H23.
  destruct (String.compare s1 s2) eqn:E12; try discriminate;
    destruct (String.compare s2 s3) eqn:E23; try discriminate;
    destruct (String.compare s1 s3) eqn:E13; try reflexivity;
    exfalso; apply (H s1 s2 s3); congruence.
Qed.

(** Insertion keeps a list in increasing order. *)
Lemma sorted_insert_increasing (c : string) (l : list string) :
  Sorted.StronglySorted (fun a b => String.leb a b = true) l ->
  Sorted.StronglySorted (fun a b => String.leb a b = true) (sorted_insert c l).
Proof.
  induction l as [|c' l IH]; simpl; intros Hs.
  - constructor; constructor.
  - inversion Hs as [|? ? Hs' Hall]; subst.
    destruct (String.leb c c') eqn:E.
    + constructor; [assumption|]. constructor; [assumption|].
      apply Forall_forall. intros x Hx.
      apply string_leb_trans with c'; [assumption|].
      now apply (proj1 (Forall_forall _ _) Hall).
    + constructor; [now apply IH|].
      apply Forall_forall. intros x Hx. apply sorted_insert_In in Hx.
      destruct Hx as [->|Hx].
      * destruct (String.leb_total c c') as [H|H]; congruence.
      * now apply (proj1 (Forall_forall _ _) Hall).
Qed.

Lemma sorted_increasing (l : list string) :
  Sorted.StronglySorted (fun a b => String.leb a b = true) (sorted l).
Proof.
  unfold sorted. induction l as [|c l IH]; simpl.
  - constructor.
  - now apply sorted_insert_increasing.
Qed.

Lemma collected_In (x : string) (its : list (string * entry)) (acc : list string) :
  In x (fold_left
          (fun currencies item =>
             match rates_of (snd item) with
             | Some rates => set_update currencies (keys rates)
             | None => currencies
             end) its acc)
  <-> In x acc \/
      exists k e rates,
        In (k, e) its /\ rates_of e = Some rates /\ mem x rates = true.
Proof.
  revert acc. induction its as [|[k e] its IH]; intros acc; simpl.
  - split; [now left|]. intros [H|(k & e & r & [] & _)]. assumption.
  - rewrite IH. split.
    + intros [Hin|(k' & e' & r' & Hin & Hr & Hm)].
      * destruct (rates_of e) as [r|] eqn:Er; [|now left].
        apply set_update_In in Hin. destruct Hin as [Hin|Hin]; [now left|].
        right. exists k, e, r. repeat split; [now left|assumption|].
        now apply keys_mem.
      * right. exists k', e', r'. repeat split; [now right|assumption..].
    + intros [Hin|(k' & e' & r' & [Heq|Hin] & Hr & Hm)].
      * left. destruct (rates_of e); [|assumption].
        apply set_update_In. now left.
      * inversion Heq; subst. left. rewrite Hr. apply set_update_In.
        right. now apply keys_mem.
      * right. exists k', e', r'. now repeat split.
Qed.

Lemma collected_NoDup (its : list (string * entry)) (acc : list string) :
  NoDup acc ->
  NoDup (fold_left
           (fun currencies item =>
              match rates_of (snd item) with
              | Some rates => set_update currencies (keys rates)
              | None => currencies
              end) its acc).
Proof.
  revert acc. induction its as [|[k e] its IH]; intros acc Hnd; simpl.
  - assumption.
  - apply IH. destruct (rates_of e); [now apply set_update_NoDup|assumption].
Qed.

Lemma listed_quoted (data : table) (c : string) :
  in_list c (get_available_currencies data) = true <-> quoted data c.
Proof.
  unfold get_available_currencies, quoted.
  rewrite in_list_In, sorted_In, collected_In. split.
  - intros [[]|H]. exact H.
  - intros H. now right.
Qed.

(** X1. A code is among the listed currencies exactly when the rates of
    some item of the table quote it: the list is the union of the rates'
    codes, and the keys of the table play no part. *)
Theorem get_available_currencies_union (data : table) (c : string) :
  in_list c (get_available_currencies data) = true <-> quoted data c.
Proof. apply listed_quoted. Qed.

(** X2. The listed currencies come in increasing order and none of them
    twice. *)
Theorem get_available_currencies_sorted (data : table) :
  Sorted.StronglySorted (fun a b => String.leb a b = true)
    (get_available_currencies data) /\
  NoDup (get_available_currencies data).
Proof.
  unfold get_available_currencies. split.
  - apply sorted_increasing.
  - apply sorted_NoDup. apply collected_NoDup. constructor.
Qed.

(** ** More on the two resolvers *)

Lemma get_In {V : Type} (k : string) (d : dict V) (v : V) :
  get k d = Some v -> In (k, v) d.
Proof.
  induction d as [|[k' v'] d IH]; simpl; [discriminate|].
  destruct (String.eqb_spec k k') as [->|_].
  - intros H. inversion H; subst. now left.
  - intros H. right. now apply IH.
Qed.

Lemma wf_get_middle {V : Type} (l1 l2 : dict V) (a : string) (v : V) :
  wf (l1 ++ (a, v) :: l2) -> get a (l1 ++ (a, v) :: l2) = Some v.
Proof.
  unfold wf, keys. induction l1 as [|[k x] l1 IH]; simpl; intros Hnd.
  - now rewrite String.eqb_refl.
  - inversion Hnd as [|? ? Hnot Hnd']; subst.
    destruct (String.eqb_spec a k) as [->|_]; [|now apply IH].
    exfalso. apply Hnot. rewrite map_app. apply in_or_app. right. now left.
Qed.

Lemma quoted_has_anchor (data : table) (c : string) :
  quoted data c -> exists a, find_base_currency data c = Some a.
Proof.
  intros (k & e & rates & Hin & Hr & Hm). unfold find_base_currency.
  destruct (mem c data); [now exists c|].
  destruct (scan_rates (items data) c) as [a|] eqn:Es; [now exists a|].
  apply scan_rates_none in Es. rewrite (Es k e rates Hin Hr) in Hm. discriminate.
Qed.

Lemma exchange_under_anchor (data : table) (from_currency to_currency a : string)
  (e : entry) (rates : dict Q) (rf rt : Q) :
  find_base_currency data from_currency = Some a -> a <> "" ->
  get a data = Some e -> rates_of e = Some rates ->
  get from_currency rates = Some rf -> get to_currency rates = Some rt ->
  ~ rf == 0 ->
  exists q,
    get_exchange_rate data from_currency to_currency = Return (Some q) /\
    q == rt / rf.
Proof.
  intros Ha Hna He Hr Hf Ht Hz.
  destruct (String.eqb_spec from_currency to_currency) as [<-|Hne].
  - exists 1. split; [apply exchange_same_code|].
    assert (rt = rf) by congruence. subst rt. now field.
  - exists (rt / rf). split; [|reflexivity].
    now apply exchange_quotient with a e rates.
Qed.

Lemma rebase_loop_returns (its : list (string * Q)) (base_currency : string)
  (b : Q) (acc : dict Q) :
  ~ b == 0 -> exists r, rebase_loop its base_currency b acc = Return r.
Proof.
  intros Hb. revert acc. induction its as [|[c r] its IH]; intros acc; simpl.
  - now exists acc.
  - destruct (String.eqb c base_currency); [apply IH|].
    rewrite (py_truediv_nonzero _ _ Hb). simpl. apply IH.
Qed.

Lemma get_spec_rebased_none (rates : dict Q) (base_code : string) (b : Q)
  (c : string) :
  get c rates = None -> get c (spec_rebased_rates rates base_code b) = None.
Proof.
  induction rates as [|[k v] rates IH]; simpl; [reflexivity|].
  destruct (String.eqb c k); [discriminate|exact IH].
Qed.

(** X3. The anchor [find_base_currency] returns is always a key of the
    table, so the lookup that follows it cannot miss.  On a table without
    repeated keys it is either the code itself, present as a key, or an
    anchor whose own rates quote the code. *)
Theorem find_base_currency_sound (data : table) (currency a : string) :
  find_base_currency data currency = Some a ->
  (exists e, get a data = Some e) /\
  (wf data ->
   (a = currency /\ mem currency data = true) \/
   (mem currency data = false /\
    exists e rates,
      get a data = Some e /\ rates_of e = Some rates /\
      mem currency rates = true)).
Proof.
  intros Hfind. split; [now apply find_base_currency_key with currency|].
  intros Hwf. unfold find_base_currency in Hfind.
  destruct (mem currency data) eqn:Em.
  - left. inversion Hfind. now split.
  - right. split; [reflexivity|].
    destruct (scan_rates_found _ _ _ Hfind) as (l1 & e & rates & l2 & Hsplit & _ & Hr & Hm).
    exists e, rates. unfold items in Hsplit. subst data.
    split; [now apply wf_get_middle|]. now split.
Qed.

Lemma find_base_currency_sound_witness :
  (exists e, get "EUR" shared_code_table = Some e) /\
  ((("EUR" = "JPY") /\ mem "JPY" shared_code_table = true) \/
   (mem "JPY" shared_code_table = false /\
    exists e rates,
      get "EUR" shared_code_table = Some e /\ rates_of e = Some rates /\
      mem "JPY" rates = true)).
Proof.
  destruct (find_base_currency_sound shared_code_table "JPY" "EUR" eq_refl)
    as [Hkey Hsound].
  split; [exact Hkey|]. apply Hsound.
  repeat constructor; simpl; intuition discriminate.
Defined.

(** X4. On a complete table the resolver never answers [None] for two
    listed codes: the anchor of the first is found, holds rates and quotes
    both, and the rate of the first is not zero, so no path to [None] is
    left; nor does it raise [ZeroDivisionError] or [KeyError]. *)
Theorem complete_table_always_resolves (data : table)
  (from_currency to_currency : string) :
  complete_table data ->
  in_list from_currency (get_available_currencies data) = true ->
  in_list to_currency (get_available_currencies data) = true ->
  get_exchange_rate data from_currency to_currency <> Return None /\
  get_exchange_rate data from_currency to_currency <> Raise ZeroDivisionError /\
  (forall k, get_exchange_rate data from_currency to_currency <> Raise (KeyError k)).
Proof.
  intros Hfull Hf Ht.
  pose proof (proj1 (listed_quoted data from_currency) Hf) as Hqf.
  pose proof (proj1 (listed_quoted data to_currency) Ht) as Hqt.
  destruct (quoted_has_anchor data from_currency Hqf) as [a Ha].
  destruct (find_base_currency_key _ _ _ Ha) as [e He].
  destruct (Hfull a e (get_In _ _ _ He)) as (Hna & rates & Hr & Hall).
  destruct (Hall from_currency Hqf) as (rf & Hgf & Hzf).
  destruct (Hall to_currency Hqt) as (rt & Hgt & _).
  destruct (exchange_under_anchor data from_currency to_currency a e rates rf rt
              Ha Hna He Hr Hgf Hgt Hzf) as (q & Hq & _).
  rewrite Hq. repeat split; try intros k; discriminate.
Qed.

Lemma two_anchor_table_complete : complete_table two_anchor_table.
Proof.
  assert (Hcodes : forall c, quoted two_anchor_table c -> c = "USD" \/ c = "EUR").
  { intros c (k & e & rates & Hin & Hr & Hm).
    destruct Hin as [H|[H|[]]]; inversion H; subst; simpl in Hr;
      inversion Hr; subst; unfold mem in Hm; simpl in Hm;
      destruct (String.eqb_spec c "USD"); auto;
      destruct (String.eqb_spec c "EUR"); auto; discriminate. }
  intros k e [H|[H|[]]]; inversion H; subst; (split; [discriminate|]);
    eexists; (split; [reflexivity|]); intros c Hc;
    destruct (Hcodes c Hc) as [-> | ->]; eexists; (split; [reflexivity|discriminate]).
Qed.

Lemma complete_table_always_resolves_witness :
  get_exchange_rate two_anchor_table "EUR" "USD" <> Return None /\
  get_exchange_rate two_anchor_table "EUR" "USD" <> Raise ZeroDivisionError /\
  (forall k, get_exchange_rate two_anchor_table "EUR" "USD" <> Raise (KeyError k)).
Proof.
  apply (complete_table_always_resolves two_anchor_table "EUR" "USD").
  - exact two_anchor_table_complete.
  - reflexivity.
  - reflexivity.
Defined.

(** X5. [get_rates_for_base_currency] never raises [KeyError] or
    [ZeroDivisionError]: every key it indexes with has been tested or
    found before, and the division of the rebase is only reached with a
    base rate that is not zero. *)
Theorem get_rates_for_base_currency_safe (data : table) (base_currency : string) :
  get_rates_for_base_currency data base_currency <> Raise ZeroDivisionError /\
  (forall k, get_rates_for_base_currency data base_currency <> Raise (KeyError k)).
Proof.
  assert (H : exists r, get_rates_for_base_currency data base_currency = Return r);
    [|destruct H as [r ->]; split; [|intros k]; discriminate].
  unfold get_rates_for_base_currency.
  assert (Hrest : exists r,
             (let source_base := find_base_currency_for_currency data base_currency in
              if falsy source_base then Return None
              else
                match source_base with
                | None => Return None
                | Some source_base =>
                    source_data <- getitem data source_base ;;
                    match rates_of source_data with
                    | None => Return None
                    | Some source_rates =>
                        if negb (mem base_currency source_rates) then Return None
                        else
                          base_rate <- getitem source_rates base_currency ;;
                          if Qeq_bool base_rate 0 then Return None
                          else
                            new_rates <-
                              rebase_loop (items source_rates) base_currency
                                base_rate [] ;;
                            Return (Some new_rates)
                    end
                end)%result = Return r).
  { cbv zeta.
    destruct (find_base_currency_for_currency data base_currency) as [a|] eqn:Ea;
      [|now eexists].
    destruct (falsy (Some a)); [now eexists|].
    destruct (find_base_currency_key data base_currency a Ea) as [e He].
    rewrite (getitem_get _ _ _ He). simpl.
    destruct (rates_of e) as [rates|]; [|now eexists].
    destruct (mem base_currency rates) eqn:Em; simpl; [|now eexists].
    apply mem_true_get in Em as [b Hb]. rewrite (getitem_get _ _ _ Hb). simpl.
    destruct (Qeq_bool b 0) eqn:E0; [now eexists|].
    destruct (rebase_loop_returns (items rates) base_currency b [] (Qeq_bool_neq _ _ E0))
      as [r ->].
    simpl. now eexists. }
  destruct (mem base_currency data) eqn:Em.
  - apply mem_true_get in Em as [e He]. rewrite (getitem_get _ _ _ He). simpl.
    destruct (rates_of e); [now eexists|exact Hrest].
  - simpl. exact Hrest.
Qed.

(** X6. The two modules agree.  For a code that is not an anchor, with a
    rate that is not zero under the anchor found for it, the mapping
    [get_rates_for_base_currency] builds holds, for every code, exactly
    what [get_exchange_rate] answers from the base code to that code: the
    same rate, or nothing on both sides. *)
Theorem rebased_rates_are_exchange_rates (data : table) (base_currency a : string)
  (e : entry) (rates : dict Q) (b : Q) :
  mem base_currency data = false ->
  find_base_currency data base_currency = Some a -> a <> "" ->
  get a data = Some e -> rates_of e = Some rates -> wf rates ->
  get base_currency rates = Some b -> ~ b == 0 ->
  exists new_rates,
    get_rates_for_base_currency data base_currency = Return (Some new_rates) /\
    forall c, get_exchange_rate data base_currency c = Return (get c new_rates).
Proof.
  intros Hm Ha Hna He Hr Hwf Hb Hz.
  exists (spec_rebased_rates rates base_currency b). split.
  - unfold get_rates_for_base_currency. rewrite Hm. simpl.
    change (find_base_currency_for_currency data base_currency)
      with (find_base_currency data base_currency).
    rewrite Ha. cbv zeta. rewrite (falsy_some _ Hna), (getitem_get _ _ _ He).
    simpl. rewrite Hr, (get_some_mem _ _ _ Hb), (getitem_get _ _ _ Hb). simpl.
    destruct (Qeq_bool b 0) eqn:E0; [apply Qeq_bool_eq in E0; contradiction|].
    now rewrite (rebase_loop_fresh _ _ _ [] Hz Hwf).
  - intros c. destruct (String.eqb_spec base_currency c) as [<-|Hne].
    + rewrite exchange_same_code, (get_spec_rebased _ _ _ _ _ Hb).
      now rewrite String.eqb_refl.
    + destruct (get c rates) as [rc|] eqn:Ec.
      * rewrite (get_spec_rebased _ _ _ _ _ Ec).
        destruct (String.eqb_spec c base_currency) as [->|_]; [contradiction|].
        now apply exchange_quotient with a e rates.
      * rewrite (get_spec_rebased_none _ _ _ _ Ec).
        unfold get_exchange_rate.
        destruct (String.eqb_spec base_currency c); [contradiction|].
        rewrite Ha. cbv zeta. rewrite (falsy_some _ Hna), (getitem_get _ _ _ He).
        simpl. rewrite Hr. apply mem_false_get in Ec. rewrite Ec.
        now rewrite andb_false_r.
Qed.

Lemma rebased_rates_are_exchange_rates_witness :
  exists new_rates,
    get_rates_for_base_currency sample_table "EUR" = Return (Some new_rates) /\
    forall c, get_exchange_rate sample_table "EUR" c = Return (get c new_rates).
Proof.
  apply (rebased_rates_are_exchange_rates sample_table "EUR" "USD"
           (Obj (Some usd_rates)) usd_rates 0.9); try reflexivity.
  - discriminate.
  - repeat constructor; simpl; intuition discriminate.
  - discriminate.
Defined.

(** X7. Rates under one anchor chain: when the same anchor serves [x] and
    [y] and quotes [x], [y] and [z], the first two at rates that are not
    zero, the rate from [x] to [y] times the rate from [y] to [z] is the
    rate from [x] to [z]. *)
Theorem exchange_rates_chain (data : table) (x y z a : string) (e : entry)
  (rates : dict Q) (rx ry rz : Q) :
  find_base_currency data x = Some a ->
  find_base_currency data y = Some a ->
  a <> "" ->
  get a data = Some e -> rates_of e = Some rates ->
  get x rates = Some rx -> get y rates = Some ry -> get z rates = Some rz ->
  ~ rx == 0 -> ~ ry == 0 ->
  exists p q r,
    get_exchange_rate data x y = Return (Some p) /\
    get_exchange_rate data y z = Return (Some q) /\
    get_exchange_rate data x z = Return (Some r) /\
    p * q == r.
Proof.
  intros Hx Hy Hna He Hr Hgx Hgy Hgz Hzx Hzy.
  destruct (exchange_under_anchor data x y a e rates rx ry Hx Hna He Hr Hgx Hgy Hzx)
    as (p & Hp & Ep).
  destruct (exchange_under_anchor data y z a e rates ry rz Hy Hna He Hr Hgy Hgz Hzy)
    as (q & Hq & Eq).
  destruct (exchange_under_anchor data x z a e rates rx rz Hx Hna He Hr Hgx Hgz Hzx)
    as (r & Hr' & Er).
  exists p, q, r. repeat split; try assumption.
  rewrite Ep, Eq, Er. field. split; assumption.
Qed.

Lemma exchange_rates_chain_witness :
  exists p q r,
    get_exchange_rate sample_table "EUR" "GBP" = Return (Some p) /\
    get_exchange_rate sample_table "GBP" "USD" = Return (Some q) /\
    get_exchange_rate sample_table "EUR" "USD" = Return (Some r) /\
    p * q == r.
Proof.
  apply (exchange_rates_chain sample_table "EUR" "GBP" "USD" "USD"
           (Obj (Some usd_rates)) usd_rates 0.9 0.8 1);
    try reflexivity; discriminate.
Defined.

(** X8. Converting an amount and converting the result back, under one
    anchor and with rates that are not zero, gives the amount again. *)
Theorem convert_currency_round_trip (data : table) (amount : Q) (x y a : string)
  (e : entry) (rates : dict Q) (rx ry : Q) :
  find_base_currency data x = Some a ->
  find_base_currency data y = Some a ->
  a <> "" ->
  get a data = Some e -> rates_of e = Some rates ->
  get x rates = Some rx -> get y rates = Some ry ->
  ~ rx == 0 -> ~ ry == 0 ->
  exists v w,
    convert_currency data amount x y = Return (Some v) /\
    convert_currency data v y x = Return (Some w) /\
    w == amount.
Proof.
  intros Hx Hy Hna He Hr Hgx Hgy Hzx Hzy.
  destruct (exchange_under_anchor data x y a e rates rx ry Hx Hna He Hr Hgx Hgy Hzx)
    as (p & Hp & Ep).
  destruct (exchange_under_anchor data y x a e rates ry rx Hy Hna He Hr Hgy Hgx Hzy)
    as (q & Hq & Eq).
  exists (amount * p), (amount * p * q). unfold convert_currency.
  rewrite Hp, Hq. simpl. repeat split.
  rewrite Ep, Eq. field. split; assumption.
Qed.

Lemma convert_currency_round_trip_witness :
  exists v w,
    convert_currency sample_table 100 "EUR" "GBP" = Return (Some v) /\
    convert_currency sample_table v "GBP" "EUR" = Return (Some w) /\
    w == 100.
Proof.
  apply (convert_currency_round_trip sample_table 100 "EUR" "GBP" "USD"
           (Obj (Some usd_rates)) usd_rates 0.9 0.8);
    try reflexivity; discriminate.
Defined.

(** ** The menu of the converter *)

(** X10. What the two menu choices report comes from the resolver.  A
    conversion is only reported for an amount that was entered and is not
    negative, between two codes some rates quote, as that amount times the
    resolver's rate; a rate is only shown between two such codes, as the
    resolver gave it; and neither choice lets a [ZeroDivisionError] or a
    [KeyError] out. *)
Theorem menu_reports_resolved_rates (data : table)
  (from_currency to_currency : string) (amount_input : option Q) :
  (forall amount converted,
     convert_choice data from_currency to_currency amount_input
     = Converted amount converted ->
     amount_input = Some amount /\ 0 <= amount /\
     quoted data from_currency /\ quoted data to_currency /\
     exists rate,
       get_exchange_rate data from_currency to_currency = Return (Some rate) /\
       converted = amount * rate) /\
  (forall f t rate,
     rate_choice data from_currency to_currency = RateShown f t rate ->
     f = from_currency /\ t = to_currency /\
     quoted data from_currency /\ quoted data to_currency /\
     get_exchange_rate data from_currency to_currency = Return (Some rate)) /\
  convert_choice data from_currency to_currency amount_input
  <> Uncaught ZeroDivisionError /\
  (forall k, convert_choice data from_currency to_currency amount_input
             <> Uncaught (KeyError k)) /\
  rate_choice data from_currency to_currency <> RateUncaught ZeroDivisionError /\
  (forall k, rate_choice data from_currency to_currency <> RateUncaught (KeyError k)).
Proof.
  unfold convert_choice, convert_choice_with, rate_choice, convert_currency.
  cbv zeta.
  destruct (get_exchange_rate_returns data from_currency to_currency) as [r Hr].
  rewrite Hr. simpl.
  destruct (in_list from_currency (get_available_currencies data)) eqn:Ef;
    destruct (in_list to_currency (get_available_currencies data)) eqn:Et; simpl;
    try (repeat split; intros; discriminate).
  apply listed_quoted in Ef. apply listed_quoted in Et.
  split; [|split; [|split; [|split; [|split]]]].
  - intros amount converted. destruct amount_input as [a|]; [|discriminate].
    destruct (Qle_bool 0 a) eqn:Ea; simpl; [|discriminate].
    destruct r as [rate|]; [|discriminate].
    intros H. inversion H; subst. apply Qle_bool_iff in Ea.
    repeat split; try assumption. now exists rate.
  - intros f t rate. destruct r as [rate0|]; [|discriminate].
    intros H. inversion H; subst. now repeat split.
  - destruct amount_input as [amount|]; [|discriminate].
    destruct (Qle_bool 0 amount); simpl; [|discriminate].
    destruct r; discriminate.
  - intros k. destruct amount_input as [amount|]; [|discriminate].
    destruct (Qle_bool 0 amount); simpl; [|discriminate].
    destruct r; discriminate.
  - destruct r; discriminate.
  - intros k. destruct r; discriminate.
Qed.

Lemma menu_reports_resolved_rates_witness :
  (Some 9 = Some 9 /\ 0 <= 9 /\
   quoted sample_table "EUR" /\ quoted sample_table "GBP" /\
   exists rate,
     get_exchange_rate sample_table "EUR" "GBP" = Return (Some rate) /\
     9 * (0.8 / 0.9) = 9 * rate) /\
  ("EUR" = "EUR" /\ "GBP" = "GBP" /\
   quoted sample_table "EUR" /\ quoted sample_table "GBP" /\
   get_exchange_rate sample_table "EUR" "GBP" = Return (Some (0.8 / 0.9))).
Proof.
  split.
  - apply (proj1 (menu_reports_resolved_rates sample_table "EUR" "GBP" (Some 9))
             9 (9 * (0.8 / 0.9))).
    reflexivity.
  - apply (proj1 (proj2 (menu_reports_resolved_rates sample_table "EUR" "GBP" (Some 9)))
             "EUR" "GBP" (0.8 / 0.9)).
    reflexivity.
Defined.

Lemma no_rates_collects_nothing (its : list (string * entry)) (acc : list string) :
  (forall k e, In (k, e) its -> rates_of e = None) ->
  fold_left
    (fun currencies item =>
       match rates_of (snd item) with
       | Some rates => set_update currencies (keys rates)
       | None => currencies
       end) its acc = acc.
Proof.
  revert acc. induction its as [|[k e] its IH]; intros acc Hnone; simpl.
  - reflexivity.
  - rewrite (Hnone k e (or_introl eq_refl)). apply IH.
    intros k' e' Hin. apply (Hnone k' e'). now right.
Qed.

(** X11. On a table none of whose entries has rates (what a refresh
    leaves when every fetch comes back with a failing status) nothing is
    listed, no two different codes exchange and no code can serve as a
    base. *)
Theorem no_rates_nothing_resolves (data : table) :
  no_rates data ->
  get_available_currencies data = [] /\
  (forall from_currency to_currency,
     from_currency <> to_currency ->
     get_exchange_rate data from_currency to_currency = Return None) /\
  (forall base_currency,
     get_rates_for_base_currency data base_currency = Return None).
Proof.
  intros Hnone. split; [|split].
  - unfold get_available_currencies. now rewrite no_rates_collects_nothing.
  - intros f t Hne. unfold get_exchange_rate.
    destruct (String.eqb_spec f t); [contradiction|].
    destruct (find_base_currency data f) as [a|] eqn:Ea; cbv zeta; [|reflexivity].
    destruct (falsy (Some a)); [reflexivity|].
    destruct (find_base_currency_key _ _ _ Ea) as [e He].
    rewrite (getitem_get _ _ _ He). simpl.
    now rewrite (Hnone a e (get_In _ _ _ He)).
  - intros b. unfold get_rates_for_base_currency.
    assert (Hrest : forall a, find_base_currency_for_currency data b = a ->
              (if falsy a then Return None
               else match a with
                    | None => Return None
                    | Some source_base =>
                        (source_data <- getitem data source_base ;;
                         match rates_of source_data with
                         | None => Return None
                         | Some source_rates =>
                             if negb (mem b source_rates) then Return None
                             else
                               base_rate <- getitem source_rates b ;;
                               if Qeq_bool base_rate 0 then Return None
                               else
                                 new_rates <-
                                   rebase_loop (items source_rates) b base_rate [] ;;
                                 Return (Some new_rates)
                         end)%result
                    end) = Return None).
    { intros [a|] Ea; [|reflexivity].
      destruct (falsy (Some a)); [reflexivity|].
      destruct (find_base_currency_key data b a Ea) as [e He].
      rewrite (getitem_get _ _ _ He). simpl.
      now rewrite (Hnone a e (get_In _ _ _ He)). }
    destruct (mem b data) eqn:Em; simpl.
    + apply mem_true_get in Em as [e He]. rewrite (getitem_get _ _ _ He). simpl.
      rewrite (Hnone b e (get_In _ _ _ He)). now apply Hrest.
    + now apply Hrest.
Qed.

Lemma no_rates_nothing_resolves_witness :
  get_available_currencies failed_table = [] /\
  (forall from_currency to_currency,
     from_currency <> to_currency ->
     get_exchange_rate failed_table from_currency to_currency = Return None) /\
  (forall base_currency,
     get_rates_for_base_currency failed_table base_currency = Return None).
Proof.
  apply (no_rates_nothing_resolves failed_table).
  intros k e [H|[H|[]]]; inversion H; reflexivity.
Defined.

(** ** The cache cycle from end to end *)

Lemma fetch_all_keys (cs : list string) (acc : table) (w : world) :
  NoDup (keys acc ++ cs) ->
  forall t w', fetch_all cs acc w = (Return t, w') -> keys t = keys acc ++ cs.
Proof.
  revert acc w. induction cs as [|c cs IH]; intros acc w Hnd t w'; simpl.
  - unfold io_ret. intros H. inversion H; subst. now rewrite app_nil_r.
  - unfold io_bind. destruct (get_currency_rate c w) as [[rate|x] w1];
      [|discriminate].
    intros Hrun. apply IH in Hrun.
    + rewrite Hrun, keys_set.
      assert (Hm : mem c acc = false).
      { destruct (mem c acc) eqn:Em; [|reflexivity].
        apply keys_mem in Em. apply NoDup_remove_2 in Hnd.
        exfalso. apply Hnd. apply in_or_app. now left. }
      rewrite Hm, <- app_assoc. reflexivity.
    + rewrite keys_set.
      assert (Hm : mem c acc = false).
      { destruct (mem c acc) eqn:Em; [|reflexivity].
        apply keys_mem in Em. apply NoDup_remove_2 in Hnd.
        exfalso. apply Hnd. apply in_or_app. now left. }
      rewrite Hm, <- app_assoc. exact Hnd.
Qed.

Lemma save_to_file_ok_file (w : world) (data : table) :
  disk w = WriteOk ->
  exists f,
    fs (snd (save_to_file data w)) FILE_NAME = Some f /\
    content f = Json data /\
    read_error f = match fs w FILE_NAME with
                   | Some f0 => read_error f0
                   | None => None
                   end.
Proof.
  intros Hd.
  unfold save_to_file, try_except, io_bind, open_w, json_dump, write_file.
  rewrite Hd. simpl. rewrite ?Hd. simpl. rewrite ?String.eqb_refl. simpl.
  rewrite ?String.eqb_refl. eexists. split; [reflexivity|]. now split.
Qed.

Lemma read_from_file_parsed (w : world) (f : file) (t : table) :
  fs w FILE_NAME = Some f -> read_error f = None -> content f = Json t ->
  read_from_file w = (Return (Some t), w).
Proof.
  intros Hf He Hc. unfold read_from_file, try_except, io_bind, open_r_load.
  now rewrite Hf, He, Hc.
Qed.

(** X12. The configured order is the table's order.  When every configured
    code is answered and no code is configured twice, the fetch loop
    returns a table whose keys are the configured codes in their order,
    each holding what its response gives (the parsed body for status 200,
    a null entry otherwise); no file is written on the way. *)
Theorem fetch_all_in_configured_order (cs : list string) (w : world) :
  NoDup cs ->
  (forall c, In c cs -> exists r, answers w c r) ->
  exists t w',
    fetch_all cs [] w = (Return t, w') /\
    get_available_base_currencies t = cs /\
    (forall c r, In c cs -> answers w c r -> get c t = Some (spec_fetched_entry r)) /\
    same_env w w'.
Proof.
  intros Hnd Hall.
  destruct (fetch_all_answered cs [] w Hall) as (t & w' & Hrun & Henv & Hin & _).
  exists t, w'. split; [exact Hrun|]. split; [|now split].
  unfold get_available_base_currencies.
  now rewrite (fetch_all_keys cs [] w Hnd t w' Hrun).
Qed.

Lemma fetch_all_in_configured_order_witness :
  exists t w',
    fetch_all FAVORITE_CURRENCIES [] (world_at_noon no_files WriteOk server_gbp_404)
    = (Return t, w') /\
    get_available_base_currencies t = FAVORITE_CURRENCIES /\
    (forall c r,
       In c FAVORITE_CURRENCIES ->
       answers (world_at_noon no_files WriteOk server_gbp_404) c r ->
       get c t = Some (spec_fetched_entry r)) /\
    same_env (world_at_noon no_files WriteOk server_gbp_404) w'.
Proof.
  apply (fetch_all_in_configured_order FAVORITE_CURRENCIES
           (world_at_noon no_files WriteOk server_gbp_404)).
  - repeat constructor; simpl; intuition discriminate.
  - intros c [<-|[<-|[<-|[<-|[]]]]]; eexists; (split; [reflexivity|]);
      intros H; try discriminate H; now eexists.
Defined.

(** X13. A fresh cache is used as it is.  When the cache file was modified
    at most 24 hours ago, can be read and holds a table,
    [load_or_update_currency_rates] returns that table, prints one line
    and leaves the world otherwise untouched: no request is made and
    nothing is written, whatever the server or the disk would do. *)
Theorem fresh_cache_is_returned (w : world) (f : file) (t : Z) (cached : table) :
  fs w FILE_NAME = Some f -> file_time f = Return t ->
  (now w - t <= hours_24)%Z ->
  read_error f = None -> content f = Json cached ->
  load_or_update_currency_rates w
  = (Return (Some cached),
     MkWorld (fs w) (now w) (http w) (disk w) (stdout w ++ [MsgUsingCache])).
Proof.
  intros Hf Ht Hage He Hc.
  unfold load_or_update_currency_rates, io_bind at 1.
  assert (Hfresh : is_file_older_than_24_hours FILE_NAME w = (Return false, w)).
  { unfold is_file_older_than_24_hours, io_bind, path_exists, try_except,
      probe_file_time, datetime_now, io_ret.
    rewrite Hf. simpl. rewrite Hf, Ht. simpl.
    apply Z.ltb_ge in Hage. now rewrite Hage. }
  rewrite Hfresh. unfold io_bind, print.
  now apply read_from_file_parsed with f.
Qed.

Lemma fresh_cache_is_returned_witness :
  fst (load_or_update_currency_rates
         (world_at_noon (cache_written_at (noon - one_minute))
            (DumpFails OSError) server_eur_down))
  = Return (Some sample_table).
Proof.
  rewrite (fresh_cache_is_returned
             (world_at_noon (cache_written_at (noon - one_minute))
                (DumpFails OSError) server_eur_down)
             (MkFile (Return (noon - one_minute)%Z) None (Json sample_table))
             (noon - one_minute)%Z sample_table);
    try reflexivity.
  vm_compute. discriminate.
Defined.

(** X14. A fresh cache that does not parse is not repaired.  While the
    file is at most 24 hours old, [load_or_update_currency_rates] answers
    [None] and makes no request, so a corrupt cache stays until it ages. *)
Theorem fresh_corrupt_cache_is_kept (w : world) (f : file) (t : Z) :
  fs w FILE_NAME = Some f -> file_time f = Return t ->
  (now w - t <= hours_24)%Z ->
  read_error f = None -> content f = Malformed ->
  load_or_update_currency_rates w
  = (Return None,
     MkWorld (fs w) (now w) (http w) (disk w)
             ((stdout w ++ [MsgUsingCache]) ++ [MsgBadJson])).
Proof.
  intros Hf Ht Hage He Hc.
  unfold load_or_update_currency_rates, io_bind at 1.
  assert (Hfresh : is_file_older_than_24_hours FILE_NAME w = (Return false, w)).
  { unfold is_file_older_than_24_hours, io_bind, path_exists, try_except,
      probe_file_time, datetime_now, io_ret.
    rewrite Hf. simpl. rewrite Hf, Ht. simpl.
    apply Z.ltb_ge in Hage. now rewrite Hage. }
  rewrite Hfresh. unfold io_bind at 1. unfold print at 1.
  unfold read_from_file, try_except, io_bind, open_r_load. simpl.
  now rewrite Hf, He, Hc.
Qed.

Lemma fresh_corrupt_cache_is_kept_witness :
  fst (load_or_update_currency_rates
         (world_at_noon (cache_corrupt_at (noon - one_minute)) WriteOk server_up))
  = Return None.
Proof.
  rewrite (fresh_corrupt_cache_is_kept
             (world_at_noon (cache_corrupt_at (noon - one_minute)) WriteOk server_up)
             (MkFile (Return (noon - one_minute)%Z) None Malformed)
             (noon - one_minute)%Z);
    try reflexivity.
  vm_compute. discriminate.
Defined.

Lemma stale_refresh_steps (w : world) :
  fst (is_file_older_than_24_hours FILE_NAME w) = Return true ->
  (forall c, In c FAVORITE_CURRENCIES -> exists r, answers w c r) ->
  exists t w3,
    same_env w w3 /\
    get_available_base_currencies t = FAVORITE_CURRENCIES /\
    (forall c r, In c FAVORITE_CURRENCIES -> answers w c r ->
                 get c t = Some (spec_fetched_entry r)) /\
    load_or_update_currency_rates w
    = read_from_file (snd (print MsgUpdated (snd (save_to_file t w3)))).
Proof.
  intros Hstale Hall.
  unfold load_or_update_currency_rates. unfold io_bind at 1.
  pose proof (is_file_older_same_env w FILE_NAME) as Henv.
  destruct (is_file_older_than_24_hours FILE_NAME w) as [r w1].
  simpl in Hstale, Henv. subst r.
  unfold io_bind at 1. unfold io_bind at 1. unfold print at 1.
  set (w2 := MkWorld (fs w1) (now w1) (http w1) (disk w1)
               (stdout w1 ++ [MsgRefreshing])).
  assert (Henv2 : same_env w w2).
  { apply same_env_trans with w1; [assumption|now repeat split]. }
  assert (Hall2 : forall c, In c FAVORITE_CURRENCIES -> exists r, answers w2 c r).
  { intros c Hc. destruct (Hall c Hc) as [r Hr]. exists r.
    now apply answers_same_env with w. }
  assert (Hnd : NoDup FAVORITE_CURRENCIES).
  { repeat constructor; simpl; intuition discriminate. }
  destruct (fetch_all_answered FAVORITE_CURRENCIES [] w2 Hall2)
    as (t & w3 & Hfetch & Henv3 & Hin & _).
  exists t, w3. split; [now apply same_env_trans with w2|]. split; [|split].
  - unfold get_available_base_currencies.
    now rewrite (fetch_all_keys FAVORITE_CURRENCIES [] w2 Hnd t w3 Hfetch).
  - intros c r Hc Hr. apply Hin; [assumption|]. now apply answers_same_env with w.
  - unfold update_currency_rates, update_currency_rates_for.
    unfold io_bind at 1. rewrite Hfetch. unfold io_bind at 1.
    destruct (save_to_file_runs w3 t) as [Hret _].
    destruct (save_to_file t w3) as [r4 w4]. simpl in Hret. subst r4.
    reflexivity.
Qed.

Lemma stale_refresh_result (w : world) :
  fst (is_file_older_than_24_hours FILE_NAME w) = Return true ->
  (forall c, In c FAVORITE_CURRENCIES -> exists r, answers w c r) ->
  disk w = WriteOk ->
  (forall f, fs w FILE_NAME = Some f -> read_error f = None) ->
  exists t,
    fst (load_or_update_currency_rates w) = Return (Some t) /\
    get_available_base_currencies t = FAVORITE_CURRENCIES /\
    (forall c r, In c FAVORITE_CURRENCIES -> answers w c r ->
                 get c t = Some (spec_fetched_entry r)) /\
    content_at (snd (load_or_update_currency_rates w)) FILE_NAME = Some (Json t).
Proof.
  intros Hstale Hall Hd Hread.
  destruct (stale_refresh_steps w Hstale Hall) as (t & w3 & Henv & Hkeys & Hin & ->).
  exists t. destruct Henv as (Hfs & _ & _ & Hdisk).
  destruct (save_to_file_ok_file w3 t) as (f & Hf & Hc & He); [congruence|].
  assert (He' : read_error f = None).
  { rewrite He, Hfs. destruct (fs w FILE_NAME) as [f0|] eqn:E0; [|reflexivity].
    now apply Hread. }
  rewrite (read_from_file_parsed _ f t); [|exact Hf|exact He'|exact Hc].
  repeat split; try assumption.
  unfold content_at. simpl. rewrite Hf. simpl. now rewrite Hc.
Qed.

(** X15. A stale cache is refreshed and read back.  When the freshness
    test says stale, every configured code is answered, the write goes
    through and the file (if there was one) is readable,
    [load_or_update_currency_rates] returns the fetched table, with the
    configured codes as keys in their order and the entry of each
    response, and the cache file holds that same table afterwards. *)
Theorem stale_cache_is_refreshed (w : world) :
  fst (is_file_older_than_24_hours FILE_NAME w) = Return true ->
  (forall c, In c FAVORITE_CURRENCIES -> exists r, answers w c r) ->
  disk w = WriteOk ->
  (forall f, fs w FILE_NAME = Some f -> read_error f = None) ->
  exists t,
    fst (load_or_update_currency_rates w) = Return (Some t) /\
    get_available_base_currencies t = FAVORITE_CURRENCIES /\
    (forall c r, In c FAVORITE_CURRENCIES -> answers w c r ->
                 get c t = Some (spec_fetched_entry r)) /\
    content_at (snd (load_or_update_currency_rates w)) FILE_NAME = Some (Json t).
Proof. apply stale_refresh_result. Qed.

Lemma stale_cache_is_refreshed_witness :
  exists t,
    fst (load_or_update_currency_rates
           (world_at_noon (cache_written_at (noon - hours_24 - 1)) WriteOk server_gbp_404))
    = Return (Some t) /\
    get_available_base_currencies t = FAVORITE_CURRENCIES /\
    (forall c r,
       In c FAVORITE_CURRENCIES ->
       answers (world_at_noon (cache_written_at (noon - hours_24 - 1)) WriteOk
                  server_gbp_404) c r ->
       get c t = Some (spec_fetched_entry r)) /\
    content_at
      (snd (load_or_update_currency_rates
              (world_at_noon (cache_written_at (noon - hours_24 - 1)) WriteOk
                 server_gbp_404))) FILE_NAME
    = Some (Json t).
Proof.
  apply (stale_cache_is_refreshed
           (world_at_noon (cache_written_at (noon - hours_24 - 1)) WriteOk
              server_gbp_404)).
  - reflexivity.
  - intros c [<-|[<-|[<-|[<-|[]]]]]; eexists; (split; [reflexivity|]);
      intros H; try discriminate H; now eexists.
  - reflexivity.
  - intros f Hf. vm_compute in Hf. inversion Hf. reflexivity.
Defined.

(** X16. When the stale cache file cannot be opened for writing, the old
    snapshot survives and is what the caller gets: the failure is printed
    and [load_or_update_currency_rates] returns the table the file already
    held, however old. *)
Theorem stale_cache_survives_failed_open (w : world) (e : exn) (f : file)
  (old : table) :
  fst (is_file_older_than_24_hours FILE_NAME w) = Return true ->
  (forall c, In c FAVORITE_CURRENCIES -> exists r, answers w c r) ->
  disk w = OpenFails e ->
  fs w FILE_NAME = Some f -> read_error f = None -> content f = Json old ->
  fst (load_or_update_currency_rates w) = Return (Some old) /\
  In (MsgSaveError e) (stdout (snd (load_or_update_currency_rates w))).
Proof.
  intros Hstale Hall Hd Hf He Hc.
  destruct (stale_refresh_steps w Hstale Hall) as (t & w3 & Henv & _ & _ & ->).
  destruct Henv as (Hfs & _ & _ & Hdisk).
  destruct (save_to_file_runs w3 t) as [_ Hsave].
  rewrite Hdisk, Hd in Hsave. destruct Hsave as [Hfs4 Hout4].
  rewrite (read_from_file_parsed _ f old); [|simpl; now rewrite Hfs4, Hfs|exact He|exact Hc].
  split; [reflexivity|]. simpl. rewrite Hout4.
  apply in_or_app. left. apply in_or_app. right. now left.
Qed.

Lemma stale_cache_survives_failed_open_witness :
  fst (load_or_update_currency_rates
         (world_at_noon (cache_written_at (noon - hours_24 - 1))
            (OpenFails PermissionError) server_up))
  = Return (Some sample_table) /\
  In (MsgSaveError PermissionError)
     (stdout (snd (load_or_update_currency_rates
                     (world_at_noon (cache_written_at (noon - hours_24 - 1))
                        (OpenFails PermissionError) server_up)))).
Proof.
  apply (stale_cache_survives_failed_open
           (world_at_noon (cache_written_at (noon - hours_24 - 1))
              (OpenFails PermissionError) server_up)
           PermissionError
           (MkFile (Return (noon - hours_24 - 1)%Z) None (Json sample_table))
           sample_table); try reflexivity.
  intros c _. eexists. split; [reflexivity|]. intros _. now eexists.
Defined.

Lemma same_but_cache_refl (w : world) : same_but_cache w w.
Proof. now repeat split. Qed.

Lemma same_but_cache_trans (w1 w2 w3 : world) :
  same_but_cache w1 w2 -> same_but_cache w2 w3 -> same_but_cache w1 w3.
Proof.
  intros (Hf & Hn & Hh & Hd) (Hf' & Hn' & Hh' & Hd').
  repeat split; try congruence.
  intros path Hp. rewrite Hf', Hf by assumption. reflexivity.
Qed.

Lemma same_env_but_cache (w w' : world) : same_env w w' -> same_but_cache w w'.
Proof.
  intros (Hf & Hn & Hh & Hd). repeat split; try assumption.
  intros path _. now rewrite Hf.
Qed.

Lemma touches_bind {A B : Type} (c : IO A) (k : A -> IO B) :
  touches_only_cache c -> (forall a, touches_only_cache (k a)) ->
  touches_only_cache (io_bind c k).
Proof.
  intros Hc Hk w. unfold io_bind. specialize (Hc w).
  destruct (c w) as [[a|x] w1]; simpl in *; [|assumption].
  apply same_but_cache_trans with w1; [assumption|apply Hk].
Qed.

Lemma touches_try {A : Type} (c : IO A) (h : exn -> IO A) :
  touches_only_cache c -> (forall x, touches_only_cache (h x)) ->
  touches_only_cache (try_except c h).
Proof.
  intros Hc Hh w. unfold try_except. specialize (Hc w).
  destruct (c w) as [[a|x] w1]; simpl in *; [assumption|].
  apply same_but_cache_trans with w1; [assumption|apply Hh].
Qed.

Lemma touches_ret {A : Type} (a : A) : touches_only_cache (io_ret a).
Proof. intros w. apply same_but_cache_refl. Qed.

Lemma touches_print (m : message) : touches_only_cache (print m).
Proof. intros w. now repeat split. Qed.

Lemma touches_write_file (f : file) : touches_only_cache (write_file FILE_NAME f).
Proof.
  intros w. unfold write_file, same_but_cache. simpl.
  split; [|now repeat split].
  intros path Hp. now destruct (String.eqb_spec path FILE_NAME).
Qed.

Lemma touches_save_to_file (data : table) : touches_only_cache (save_to_file data).
Proof.
  unfold save_to_file. apply touches_try; [|intros x; apply touches_print].
  apply touches_bind.
  - intros w. unfold open_w. destruct (disk w);
      [apply touches_write_file|apply same_but_cache_refl|apply touches_write_file].
  - intros _ w. unfold json_dump.
    destruct (disk w) as [|x|x]; [|idtac|apply same_but_cache_refl];
      (destruct (fs w FILE_NAME) as [f|];
       [apply touches_write_file|apply same_but_cache_refl]).
Qed.

Lemma touches_get_currency_rate (c : string) :
  touches_only_cache (get_currency_rate c).
Proof.
  unfold get_currency_rate. apply touches_bind.
  - intros w. unfold requests_get. destruct (http w c); apply same_but_cache_refl.
  - intros r. destruct (negb (status_code r =? 200)%Z).
    + apply touches_bind; [apply touches_print|intros _; apply touches_ret].
    + apply touches_bind; [|intros d; apply touches_ret].
      intros w. apply same_but_cache_refl.
Qed.

Lemma touches_fetch_all (cs : list string) (acc : table) :
  touches_only_cache (fetch_all cs acc).
Proof.
  revert acc. induction cs as [|c cs IH]; intros acc; simpl.
  - apply touches_ret.
  - apply touches_bind; [apply touches_get_currency_rate|]. intros rate. apply IH.
Qed.

Lemma touches_read_from_file : touches_only_cache read_from_file.
Proof.
  unfold read_from_file. apply touches_try.
  - apply touches_bind; [|intros t; apply touches_ret].
    intros w. unfold open_r_load. destruct (fs w FILE_NAME) as [f|];
      [|apply same_but_cache_refl].
    destruct (read_error f); [apply same_but_cache_refl|].
    destruct (content f); apply same_but_cache_refl.
  - intros x. destruct x;
      (apply touches_bind; [apply touches_print|intros _; apply touches_ret]).
Qed.

(** X17. The cache cycle keeps to its own file: whether it returns or
    raises, [load_or_update_currency_rates] (and with it
    [update_currency_rates] and [save_to_file]) leaves every file other
    than the cache file as it was. *)
Theorem cache_cycle_touches_only_cache :
  touches_only_cache load_or_update_currency_rates /\
  touches_only_cache update_currency_rates /\
  forall data, touches_only_cache (save_to_file data).
Proof.
  assert (Hupdate : touches_only_cache update_currency_rates).
  { unfold update_currency_rates, update_currency_rates_for.
    apply touches_bind; [apply touches_fetch_all|]. intros t.
    apply touches_bind; [apply touches_save_to_file|]. intros _.
    apply touches_print. }
  split; [|split; [exact Hupdate|exact touches_save_to_file]].
  unfold load_or_update_currency_rates. apply touches_bind.
  - intros w. apply same_env_but_cache. apply is_file_older_same_env.
  - intros stale. apply touches_bind; [|intros _; apply touches_read_from_file].
    destruct stale.
    + apply touches_bind; [apply touches_print|intros _; exact Hupdate].
    + apply touches_print.
Qed.

Lemma is_file_older_returns (w : world) (path : string) :
  exists b, fst (is_file_older_than_24_hours path w) = Return b.
Proof.
  unfold is_file_older_than_24_hours, io_bind, path_exists, try_except,
    probe_file_time, datetime_now.
  destruct (fs w path) as [f|] eqn:Ef; simpl; [|now eexists].
  rewrite Ef. destruct (file_time f); simpl; now eexists.
Qed.

Lemma read_from_file_returns (w : world) :
  exists r, fst (read_from_file w) = Return r.
Proof.
  unfold read_from_file, try_except, io_bind, open_r_load.
  destruct (fs w FILE_NAME) as [f|]; [|now eexists].
  destruct (read_error f) as [x|]; [destruct x; now eexists|].
  destruct (content f); now eexists.
Qed.

(** X18. The two probes of the cache file never raise and never change a
    file: [is_file_older_than_24_hours] always answers with a boolean, and
    [read_from_file] answers with a table exactly when the file is there,
    can be read and parses, and with [None] otherwise. *)
Theorem cache_probes_never_raise (w : world) (path : string) :
  (exists b, fst (is_file_older_than_24_hours path w) = Return b) /\
  same_env w (snd (is_file_older_than_24_hours path w)) /\
  (exists r, fst (read_from_file w) = Return r) /\
  fs (snd (read_from_file w)) = fs w /\
  (forall t,
     fst (read_from_file w) = Return (Some t) <->
     exists f, fs w FILE_NAME = Some f /\ read_error f = None /\ content f = Json t).
Proof.
  split; [apply is_file_older_returns|].
  split; [apply is_file_older_same_env|].
  split; [apply read_from_file_returns|].
  unfold read_from_file, try_except, io_bind, open_r_load.
  destruct (fs w FILE_NAME) as [f|]; simpl.
  - destruct (read_error f) as [x|] eqn:Ex.
    + split; [now destruct x|]. intros t. split.
      * destruct x; discriminate.
      * intros (f0 & Hf0 & He & _). inversion Hf0; subst. congruence.
    + destruct (content f) as [t0|] eqn:Ec; simpl.
      * split; [reflexivity|]. intros t. split.
        -- intros H. inversion H; subst. now exists f.
        -- intros (f0 & Hf0 & _ & Hc). inversion Hf0; subst. congruence.
      * split; [reflexivity|]. intros t. split; [discriminate|].
        intros (f0 & Hf0 & _ & Hc). inversion Hf0; subst. congruence.
  - split; [reflexivity|]. intros t. split; [discriminate|].
    intros (f0 & Hf0 & _). discriminate.
Qed.

(** X19. Only a fetch can make the cache cycle raise: when every
    configured code is answered, [load_or_update_currency_rates] returns,
    with a table or with [None], whatever state the disk and the cache
    file are in. *)
Theorem load_or_update_raises_only_on_fetch (w : world) :
  (forall c, In c FAVORITE_CURRENCIES -> exists r, answers w c r) ->
  exists r, fst (load_or_update_currency_rates w) = Return r.
Proof.
  intros Hall.
  destruct (is_file_older_returns w FILE_NAME) as [[|] Hb].
  - destruct (stale_refresh_steps w Hb Hall) as (t & w3 & _ & _ & _ & ->).
    apply read_from_file_returns.
  - unfold load_or_update_currency_rates. unfold io_bind at 1.
    destruct (is_file_older_than_24_hours FILE_NAME w) as [b w1].
    simpl in Hb. subst b. unfold io_bind, print. apply read_from_file_returns.
Qed.

Lemma load_or_update_raises_only_on_fetch_witness :
  exists r,
    fst (load_or_update_currency_rates
           (world_at_noon cache_unreadable (DumpFails OSError) server_gbp_404))
    = Return r.
Proof.
  apply (load_or_update_raises_only_on_fetch
           (world_at_noon cache_unreadable (DumpFails OSError) server_gbp_404)).
  intros c [<-|[<-|[<-|[<-|[]]]]]; eexists; (split; [reflexivity|]);
    intros H; try discriminate H; now eexists.
Defined.

(** X20. An anchor stored without rates shadows the quotes other anchors
    hold of it: its code stays listed, yet it exchanges with no other code
    and cannot serve as a base, because the lookup stops at the anchor's
    own entry. *)
Theorem failed_anchor_shadows_quotes (data : table) (code : string) (e : entry) :
  get code data = Some e -> rates_of e = None ->
  quoted data code ->
  in_list code (get_available_currencies data) = true /\
  (forall to_currency,
     code <> to_currency ->
     get_exchange_rate data code to_currency = Return None) /\
  get_rates_for_base_currency data code = Return None.
Proof.
  intros He Hr Hq. split; [now apply listed_quoted|]. split.
  - intros t Hne. unfold get_exchange_rate, find_base_currency.
    destruct (String.eqb_spec code t); [contradiction|].
    rewrite (get_some_mem _ _ _ He). cbv zeta.
    destruct (falsy (Some code)); [reflexivity|].
    rewrite (getitem_get _ _ _ He). simpl. now rewrite Hr.
  - unfold get_rates_for_base_currency, find_base_currency_for_currency.
    rewrite (get_some_mem _ _ _ He), (getitem_get _ _ _ He). simpl.
    rewrite Hr. now destruct (String.eqb code "").
Qed.

Lemma failed_anchor_shadows_quotes_witness :
  in_list "USD" (get_available_currencies shadowed_table) = true /\
  (forall to_currency,
     "USD" <> to_currency ->
     get_exchange_rate shadowed_table "USD" to_currency = Return None) /\
  get_rates_for_base_currency shadowed_table "USD" = Return None.
Proof.
  apply (failed_anchor_shadows_quotes shadowed_table "USD" Null).
  - reflexivity.
  - reflexivity.
  - exists "EUR", (Obj (Some [("EUR", 1); ("USD", 1.1); ("GBP", 0.85)])),
      [("EUR", 1); ("USD", 1.1); ("GBP", 0.85)].
    split; [right; now left|]. split; reflexivity.
Defined.

(** ** The printed list *)

Lemma range_from_below (fuel start stop step i : nat) :
  In i (range_from fuel start stop step) -> (i < stop)%nat.
Proof.
  revert start. induction fuel as [|fuel IH]; intros start; simpl; [easy|].
  destruct (Nat.ltb_spec start stop) as [Hlt|_]; [|easy].
  intros [<-|Hin]; [assumption|]. now apply IH with (start + step)%nat.
Qed.

Lemma rows_concat {A : Type} (l : list A) (step fuel start : nat) :
  (0 < step)%nat -> (length l <= start + fuel)%nat ->
  concat (map (fun i => slice l i step) (range_from fuel start (length l) step))
  = skipn start l.
Proof.
  intros Hstep. revert start. induction fuel as [|fuel IH]; intros start Hfuel; simpl.
  - symmetry. apply skipn_all2. lia.
  - destruct (Nat.ltb_spec start (length l)) as [Hlt|Hge]; simpl.
    + rewrite IH by lia. unfold slice.
      replace (skipn (start + step) l) with (skipn step (skipn start l)).
      * apply firstn_skipn.
      * rewrite skipn_skipn. f_equal. lia.
    + symmetry. apply skipn_all2. lia.
Qed.

(** X21. [display_currencies] prints every currency once and in order, at
    most [per_line] to a line and no empty line: the rows it slices put
    end to end are the list it was given.  A [per_line] of zero makes
    [range] raise. *)
Theorem display_currencies_rows (currencies : list string) (per_line : nat) :
  (per_line = 0%nat -> display_currencies currencies per_line = None) /\
  ((0 < per_line)%nat ->
   exists rows,
     display_rows currencies per_line = Some rows /\
     display_currencies currencies per_line = Some (map format_row rows) /\
     concat rows = currencies /\
     Forall (fun row => (1 <= length row <= per_line)%nat) rows).
Proof.
  unfold display_currencies, display_rows, py_range. split.
  - now intros ->.
  - intros Hpos. destruct (Nat.eqb_spec per_line 0%nat) as [->|_]; [lia|]. simpl.
    eexists. split; [reflexivity|]. split; [reflexivity|]. split.
    + now rewrite rows_concat by lia.
    + apply Forall_forall. intros row Hrow. apply in_map_iff in Hrow.
      destruct Hrow as (i & <- & Hi). apply range_from_below in Hi.
      unfold slice. rewrite length_firstn, length_skipn. lia.
Qed.

Lemma display_currencies_rows_witness :
  display_currencies ["EUR"; "GBP"; "USD"] 0%nat = None /\
  exists rows,
    display_rows ["EUR"; "GBP"; "USD"] 2%nat = Some rows /\
    display_currencies ["EUR"; "GBP"; "USD"] 2%nat = Some (map format_row rows) /\
    concat rows = ["EUR"; "GBP"; "USD"] /\
    Forall (fun row => (1 <= length row <= 2)%nat) rows.
Proof.
  split.
  - apply (proj1 (display_currencies_rows ["EUR"; "GBP"; "USD"] 0%nat)). reflexivity.
  - apply (proj2 (display_currencies_rows ["EUR"; "GBP"; "USD"] 2%nat)). lia.
Defined.

(** ** A refresh during an outage *)

Lemma wf_In_get {V : Type} (d : dict V) (k : string) (v : V) :
  wf d -> In (k, v) d -> get k d = Some v.
Proof.
  unfold wf, keys. induction d as [|[k' v'] d IH]; simpl; intros Hnd Hin; [easy|].
  inversion Hnd as [|? ? Hnot Hnd']; subst.
  destruct Hin as [Heq|Hin].
  - inversion Heq; subst. now rewrite String.eqb_refl.
  - destruct (String.eqb_spec k k') as [->|_]; [|now apply IH].
    exfalso. apply Hnot. apply in_map_iff. now exists (k', v).
Qed.

(** X22. An outage overwrites a good cache.  When the cache is stale and
    the server answers every configured code with a status other than 200,
    the refresh still saves: [load_or_update_currency_rates] returns, and
    leaves in the cache file, a table in which no entry has rates, so
    nothing is listed or convertible until the file ages again. *)
Theorem outage_overwrites_cache (w : world) :
  fst (is_file_older_than_24_hours FILE_NAME w) = Return true ->
  (forall c, In c FAVORITE_CURRENCIES ->
             exists r, http w c = Responds r /\ status_code r <> 200%Z) ->
  disk w = WriteOk ->
  (forall f, fs w FILE_NAME = Some f -> read_error f = None) ->
  exists t,
    fst (load_or_update_currency_rates w) = Return (Some t) /\
    content_at (snd (load_or_update_currency_rates w)) FILE_NAME = Some (Json t) /\
    no_rates t /\
    get_available_currencies t = [].
Proof.
  intros Hstale Hdown Hd Hread.
  assert (Hall : forall c, In c FAVORITE_CURRENCIES -> exists r, answers w c r).
  { intros c Hc. destruct (Hdown c Hc) as (r & Hr & Hs). exists r.
    split; [assumption|]. intros H200. contradiction. }
  destruct (stale_refresh_result w Hstale Hall Hd Hread)
    as (t & Hret & Hkeys & Hin & Hfile).
  assert (Hnone : no_rates t).
  { intros k e Hke.
    assert (Hwf : wf t).
    { unfold wf. unfold get_available_base_currencies in Hkeys. rewrite Hkeys.
      repeat constructor; simpl; intuition discriminate. }
    assert (Hk : In k FAVORITE_CURRENCIES).
    { unfold get_available_base_currencies in Hkeys. rewrite <- Hkeys.
      apply in_map_iff. now exists (k, e). }
    destruct (Hdown k Hk) as (r & Hr & Hs).
    assert (Ha : answers w k r) by (split; [assumption|intros H; contradiction]).
    pose proof (Hin k r Hk Ha) as Hget.
    rewrite (wf_In_get t k e Hwf Hke) in Hget. inversion Hget as [Heq].
    unfold spec_fetched_entry. destruct (Z.eqb_spec (status_code r) 200);
      [contradiction|reflexivity]. }
  exists t. split; [assumption|]. split; [assumption|]. split; [assumption|].
  unfold get_available_currencies. now rewrite no_rates_collects_nothing.
Qed.

Lemma outage_overwrites_cache_witness :
  exists t,
    fst (load_or_update_currency_rates
           (world_at_noon (cache_written_at (noon - hours_24 - 1)) WriteOk
              server_unavailable))
    = Return (Some t) /\
    content_at
      (snd (load_or_update_currency_rates
              (world_at_noon (cache_written_at (noon - hours_24 - 1)) WriteOk
                 server_unavailable))) FILE_NAME
    = Some (Json t) /\
    no_rates t /\
    get_available_currencies t = [].
Proof.
  apply (outage_overwrites_cache
           (world_at_noon (cache_written_at (noon - hours_24 - 1)) WriteOk
              server_unavailable)).
  - reflexivity.
  - intros c _. eexists. split; [reflexivity|]. discriminate.
  - reflexivity.
  - intros f Hf. vm_compute in Hf. inversion Hf. reflexivity.
Defined.

Lemma get_available_currencies_union_witness :
  in_list "GBP" (get_available_currencies sample_table) = true.
Proof.
  apply (proj2 (get_available_currencies_union sample_table "GBP")).
  exists "USD", (Obj (Some usd_rates)), usd_rates.
  split; [now left|]. split; reflexivity.
Defined.

Lemma cache_probes_never_raise_witness :
  fst (read_from_file
         (world_at_noon (cache_written_at (noon - one_minute)) WriteOk server_up))
  = Return (Some sample_table).
Proof.
  apply (proj2 (proj2 (proj2 (proj2 (proj2
           (cache_probes_never_raise
              (world_at_noon (cache_written_at (noon - one_minute)) WriteOk server_up)
              FILE_NAME)))) sample_table)).
  eexists. split; [reflexivity|]. split; reflexivity.
Defined.
